(** * Corsair H80i V2 control utility: a shallow embedding of
      [corsair_h80i_v2.c] and the properties of its protocol layer.

    The C program talks to the cooler through libusb.  The embedding keeps
    the program's own data ([corsair_device_t] with its 64-byte buffer) and
    threads a state through every function: the device structure plus the
    trace of everything the program did to the outside world (libusb calls
    with their results, [usleep], [printf], [fprintf(stderr, ...)]), the
    newest event at the head of the list.
    libusb itself is an oracle: a function from the trace so far and the
    call being made to the value libusb gives back.

    Integers are [Z]; an [unsigned char] is a [Z] in [0, 256).  The
    temperature is a C [double], here a primitive binary64 [float].
    [main] (lines 217-257) and the connection test of [h80i_control.c]
    come after the functions of the protocol layer. *)

From Stdlib Require Import ZArith List Lia Bool String.
From Stdlib Require Import Floats Uint63.
Import ListNotations.
Open Scope Z_scope.

(** ** Constants of the source (lines 16-38) *)

Definition CORSAIR_VID : Z := 0x1b1c.
Definition H80I_V2_PID : Z := 0x0c12.

Definition EP_OUT : Z := 0x02.
Definition EP_IN : Z := 0x81.

Definition CMD_INIT : Z := 0x00.
Definition CMD_GET_STATUS : Z := 0x01.
Definition CMD_SET_PUMP : Z := 0x13.
Definition CMD_SET_FAN : Z := 0x12.
Definition CMD_SET_LED : Z := 0x23.

Definition LED_MODE_STATIC : Z := 0x00.
Definition LED_MODE_BLINK : Z := 0x01.
Definition LED_MODE_PULSE : Z := 0x02.
Definition LED_MODE_RAINBOW : Z := 0x03.

Definition USB_TIMEOUT : Z := 1000.

(** [sizeof(dev->buffer)] for [unsigned char buffer[64]]. *)
Definition BUFFER_SIZE : nat := 64.

(** The null pointer, for [libusb_device_handle *] values. *)
Definition NULL : Z := 0.

(** Values of C type [unsigned char]. *)
Definition uchar (z : Z) : Prop := 0 <= z < 256.

(** Values that fit an unsigned 16-bit field. *)
Definition uint16 (z : Z) : Prop := 0 <= z < 65536.

(** ** The device structure (lines 40-43) *)

Record corsair_device_t : Type := mk_device {
  handle : Z;            (* libusb_device_handle *handle; NULL is 0 *)
  buffer : list Z        (* unsigned char buffer[64] *)
}.

(** ** The outside world *)

(** Arguments of a [printf]/[fprintf]. *)
Inductive printf_arg : Type :=
| Arg_int (z : Z)                 (* %d *)
| Arg_double (f : float)          (* %.1f *)
| Arg_error_name (code : Z).      (* %s of libusb_error_name(code) *)

(** The libusb entry points the program uses, with their arguments.  The
    context argument is always the default context (NULL) and is left out. *)
Inductive usb_call : Type :=
| Libusb_init
| Libusb_exit
| Libusb_open_device_with_vid_pid (vid pid : Z)
| Libusb_kernel_driver_active (h iface : Z)
| Libusb_detach_kernel_driver (h iface : Z)
| Libusb_attach_kernel_driver (h iface : Z)
| Libusb_claim_interface (h iface : Z)
| Libusb_release_interface (h iface : Z)
| Libusb_close (h : Z)
| Libusb_interrupt_transfer (h endpoint : Z) (data : list Z) (length : Z)
                            (timeout : Z).

(** What libusb gives back: the returned [int] (or pointer), and for a
    transfer on an IN endpoint the bytes that arrived. *)
Record usb_reply : Type := mk_reply {
  rv : Z;
  rx : list Z
}.

Inductive event : Type :=
| Call (c : usb_call) (r : usb_reply)
| Usleep (usec : Z)
| Printf (fmt : string) (args : list printf_arg)
| Fprintf_stderr (fmt : string) (args : list printf_arg).

(** Newest event first. *)
Definition trace : Type := list event.

(** libusb and the device behind it. *)
Definition usb_oracle : Type := trace -> usb_call -> usb_reply.

(** ** Program state and the monad of the embedding *)

Record state : Type := mk_state {
  dev : corsair_device_t;
  log : trace
}.

(** A C function either returns a value in a new state, or runs into
    undefined behaviour (here: [memcpy] outside an array). *)
Inductive outcome (A : Type) : Type :=
| Val (a : A) (s : state)
| Undefined.
Arguments Val {A} a s.
Arguments Undefined {A}.

Definition M (A : Type) : Type := state -> outcome A.

Definition Return {A : Type} (a : A) : M A := fun s => Val a s.

Definition Bind {A B : Type} (m : M A) (k : A -> M B) : M B :=
  fun s => match m s with
           | Val a s' => k a s'
           | Undefined => Undefined
           end.

Declare Scope c_scope.
Delimit Scope c_scope with c.
Notation "x <- m ;; k" := (Bind m (fun x => k))
  (at level 61, m at next level, right associativity) : c_scope.
Notation "m ;; k" := (Bind m (fun _ => k))
  (at level 61, right associativity) : c_scope.
Open Scope c_scope.

Definition emit (e : event) : M unit :=
  fun s => Val tt (mk_state (dev s) (e :: log s)).

Definition get_handle : M Z := fun s => Val (handle (dev s)) s.

Definition set_handle (h : Z) : M unit :=
  fun s => Val tt (mk_state (mk_device h (buffer (dev s))) (log s)).

Definition get_buffer : M (list Z) := fun s => Val (buffer (dev s)) s.

Definition set_buffer (b : list Z) : M unit :=
  fun s => Val tt (mk_state (mk_device (handle (dev s)) b) (log s)).

Definition undefined_behaviour {A : Type} : M A := fun _ => Undefined.

Definition usleep (usec : Z) : M unit := emit (Usleep usec).
Definition printf (fmt : string) (args : list printf_arg) : M unit :=
  emit (Printf fmt args).
Definition fprintf_stderr (fmt : string) (args : list printf_arg) : M unit :=
  emit (Fprintf_stderr fmt args).

(** ** Buffer operations *)

(** [memset(dev->buffer, 0, sizeof(dev->buffer))]. *)
Definition zero_buffer : list Z := repeat 0 BUFFER_SIZE.

(** [buf[i] = v] for [i] inside the array. *)
Definition store (buf : list Z) (i : nat) (v : Z) : list Z :=
  firstn i buf ++ v :: skipn (S i) buf.

(** [memcpy(buf + off, src, n)]: [None] when the copy would read past the
    end of [src] or write past the end of [buf]. *)
Definition memcpy (buf : list Z) (off : nat) (src : list Z) (n : Z)
  : option (list Z) :=
  let k := Z.to_nat n in
  if (Nat.leb k (List.length src) && Nat.leb (off + k) (List.length buf))%bool
  then Some (firstn off buf ++ firstn k src ++ skipn (off + k) buf)
  else None.

(** Bytes arriving on an IN endpoint are written over the front of the
    buffer; libusb never writes more than the [length] it was given. *)
Definition deliver (received buf : list Z) : list Z :=
  let got := firstn (List.length buf) received in
  got ++ skipn (List.length got) buf.

(** ** Telemetry fields, the arguments of the [printf]s at lines 198-201 *)

(** Conversion of a non-negative [int] to [double]. *)
Definition int_to_double (z : Z) : float := PrimFloat.of_uint63 (Uint63.of_Z z).

(** [dev->buffer[1] + dev->buffer[2]/10.0] *)
Definition liquid_temperature (buf : list Z) : float :=
  PrimFloat.add (int_to_double (nth 1 buf 0))
                (PrimFloat.div (int_to_double (nth 2 buf 0)) 10%float).

(** [(dev->buffer[3] << 8) | dev->buffer[4]] *)
Definition pump_speed (buf : list Z) : Z :=
  Z.lor (Z.shiftl (nth 3 buf 0) 8) (nth 4 buf 0).

(** [(dev->buffer[5] << 8) | dev->buffer[6]] *)
Definition fan1_speed (buf : list Z) : Z :=
  Z.lor (Z.shiftl (nth 5 buf 0) 8) (nth 6 buf 0).

(** [(dev->buffer[7] << 8) | dev->buffer[8]] *)
Definition fan2_speed (buf : list Z) : Z :=
  Z.lor (Z.shiftl (nth 7 buf 0) 8) (nth 8 buf 0).

(** The four readings together. *)
Record status : Type := mk_status {
  temperature : float;
  pump_rpm : Z;
  fan1_rpm : Z;
  fan2_rpm : Z
}.

Definition decode_status (buf : list Z) : status :=
  mk_status (liquid_temperature buf) (pump_speed buf)
            (fan1_speed buf) (fan2_speed buf).

(** ** The program

    Format strings are kept as they are written in the C source. *)

Section Program.

Variable usb : usb_oracle.

(** One libusb call: ask the oracle, record call and reply in the trace. *)
Definition libusb (c : usb_call) : M usb_reply :=
  fun s => let r := usb (log s) c in
           Val r (mk_state (dev s) (Call c r :: log s)).

(** [libusb_interrupt_transfer(dev->handle, EP_OUT, dev->buffer,
    sizeof(dev->buffer), NULL, USB_TIMEOUT)]; the buffer is only read. *)
Definition interrupt_transfer_out : M Z :=
  h <- get_handle ;;
  buf <- get_buffer ;;
  r <- libusb (Libusb_interrupt_transfer h EP_OUT buf
                 (Z.of_nat BUFFER_SIZE) USB_TIMEOUT) ;;
  Return (rv r).

(** [libusb_interrupt_transfer(dev->handle, EP_IN, dev->buffer,
    sizeof(dev->buffer), &transferred, USB_TIMEOUT)]: the received bytes land
    in the buffer; the result is [(ret, transferred)]. *)
Definition interrupt_transfer_in : M (Z * Z) :=
  h <- get_handle ;;
  buf <- get_buffer ;;
  r <- libusb (Libusb_interrupt_transfer h EP_IN buf
                 (Z.of_nat BUFFER_SIZE) USB_TIMEOUT) ;;
  set_buffer (deliver (rx r) buf) ;;
  Return (rv r, Z.of_nat (List.length (firstn (List.length buf) (rx r)))).

(** Lines 207-215. *)
Definition corsair_close : M unit :=
  h <- get_handle ;;
  if h =? NULL then Return tt
  else
    libusb (Libusb_release_interface h 0) ;;
    libusb (Libusb_attach_kernel_driver h 0) ;;
    libusb (Libusb_close h) ;;
    libusb Libusb_exit ;;
    set_handle NULL.

(** Lines 69-78: the block returns [Some ret] when it leaves
    [corsair_init] early, [None] when control falls through. *)
Definition detach_kernel_driver_if_active (h : Z) : M (option Z) :=
  active <- libusb (Libusb_kernel_driver_active h 0) ;;
  if rv active =? 0 then Return None
  else
    r <- libusb (Libusb_detach_kernel_driver h 0) ;;
    if rv r <? 0 then
      fprintf_stderr "Failed to detach kernel driver: %s\n"
                     [Arg_error_name (rv r)] ;;
      libusb (Libusb_close h) ;;
      libusb Libusb_exit ;;
      Return (Some (rv r))
    else Return None.

(** Lines 46-105.  The [#ifdef DEBUG] block (lines 57-59) is not compiled
    in.  The call at line 97 is to the [corsair_close] defined at line 207. *)
Definition corsair_init : M Z :=
  r <- libusb Libusb_init ;;
  if rv r <? 0 then
    fprintf_stderr "Failed to initialize libusb: %s\n"
                   [Arg_error_name (rv r)] ;;
    Return (rv r)
  else
    opened <- libusb (Libusb_open_device_with_vid_pid CORSAIR_VID H80I_V2_PID) ;;
    set_handle (rv opened) ;;
    h <- get_handle ;;
    if h =? NULL then
      fprintf_stderr "Could not find or open Corsair H80i V2 device\n" [] ;;
      libusb Libusb_exit ;;
      Return (-1)
    else
      left_early <- detach_kernel_driver_if_active h ;;
      match left_early with
      | Some ret => Return ret
      | None =>
        r <- libusb (Libusb_claim_interface h 0) ;;
        if rv r <? 0 then
          fprintf_stderr "Failed to claim interface: %s\n"
                         [Arg_error_name (rv r)] ;;
          libusb (Libusb_close h) ;;
          libusb Libusb_exit ;;
          Return (rv r)
        else
          set_buffer zero_buffer ;;
          buf <- get_buffer ;;
          set_buffer (store buf 0 CMD_INIT) ;;
          ret <- interrupt_transfer_out ;;
          if ret <? 0 then
            fprintf_stderr "Failed to initialize device: %s\n"
                           [Arg_error_name ret] ;;
            corsair_close ;;
            Return ret
          else
            usleep 500000 ;;
            Return 0
      end.

(** Lines 111-116: the contents of [dev->buffer] after the [memset], the
    store of the opcode and the conditional [memcpy]; [data] is [None] for a
    null pointer.  [None] as a result is the out-of-bounds copy. *)
Definition command_frame (cmd : Z) (data : option (list Z)) (data_len : Z)
  : option (list Z) :=
  let buf := store zero_buffer 0 cmd in
  match data with
  | Some src => if 0 <? data_len then memcpy buf 1 src data_len else Some buf
  | None => Some buf
  end.

(** Lines 108-126. *)
Definition corsair_send_command (cmd : Z) (data : option (list Z))
                                (data_len : Z) : M Z :=
  match command_frame cmd data data_len with
  | None => undefined_behaviour
  | Some buf =>
    set_buffer buf ;;
    ret <- interrupt_transfer_out ;;
    if ret <? 0 then
      fprintf_stderr "Failed to send command: %s\n" [Arg_error_name ret] ;;
      Return ret
    else Return 0
  end.

(** Lines 129-142. *)
Definition corsair_receive_response : M Z :=
  set_buffer zero_buffer ;;
  res <- interrupt_transfer_in ;;
  let (ret, transferred) := res in
  if ret <? 0 then
    fprintf_stderr "Failed to receive response: %s\n" [Arg_error_name ret] ;;
    Return ret
  else Return transferred.

(** The clamp at lines 149 and 161. *)
Definition clamp_percent (speed_percent : Z) : Z :=
  if 100 <? speed_percent then 100 else speed_percent.

(** Lines 145-154. *)
Definition corsair_set_pump_speed (speed_percent : Z) : M Z :=
  let data := [0; 0] in
  let speed_percent := clamp_percent speed_percent in
  let data := store data 0 speed_percent in
  corsair_send_command CMD_SET_PUMP (Some data) 2.

(** Lines 157-167. *)
Definition corsair_set_fan_speed (fan_id speed_percent : Z) : M Z :=
  let data := [0; 0] in
  let speed_percent := clamp_percent speed_percent in
  let data := store data 0 fan_id in
  let data := store data 1 speed_percent in
  corsair_send_command CMD_SET_FAN (Some data) 2.

(** Lines 170-180. *)
Definition corsair_set_led (mode r g b : Z) : M Z :=
  let data := [0; 0; 0; 0] in
  let data := store data 0 mode in
  let data := store data 1 r in
  let data := store data 2 g in
  let data := store data 3 b in
  corsair_send_command CMD_SET_LED (Some data) 4.

(** Lines 196-201: the report of the buffer's telemetry fields. *)
Definition print_status : M unit :=
  buf <- get_buffer ;;
  printf "H80i V2 Status:\n" [] ;;
  printf "---------------\n" [] ;;
  printf "Liquid Temperature: %.1f°C\n" [Arg_double (liquid_temperature buf)] ;;
  printf "Pump Speed: %d RPM\n" [Arg_int (pump_speed buf)] ;;
  printf "Fan 1 Speed: %d RPM\n" [Arg_int (fan1_speed buf)] ;;
  printf "Fan 2 Speed: %d RPM\n" [Arg_int (fan2_speed buf)].

(** Lines 183-204. *)
Definition corsair_get_status : M Z :=
  ret <- corsair_send_command CMD_GET_STATUS None 0 ;;
  if ret <? 0 then Return ret
  else
    usleep 50000 ;;
    ret <- corsair_receive_response ;;
    if ret <? 0 then Return ret
    else
      print_status ;;
      Return 0.

End Program.

(** ** Observations on traces *)

(** The frame and length of a transfer on the OUT endpoint. *)
Definition sent_frame (e : event) : option (list Z * Z) :=
  match e with
  | Call (Libusb_interrupt_transfer _ ep data len _) _ =>
    if ep =? EP_OUT then Some (data, len) else None
  | _ => None
  end.

(** Every frame written to the device, newest first. *)
Fixpoint sent_frames (t : trace) : list (list Z * Z) :=
  match t with
  | [] => []
  | e :: t' =>
    match sent_frame e with
    | Some f => f :: sent_frames t'
    | None => sent_frames t'
    end
  end.

Definition is_read (e : event) : bool :=
  match e with
  | Call (Libusb_interrupt_transfer _ ep _ _ _) _ => ep =? EP_IN
  | _ => false
  end.

Definition is_printf (e : event) : bool :=
  match e with
  | Printf _ _ => true
  | _ => false
  end.

Definition is_release (e : event) : bool :=
  match e with
  | Call (Libusb_release_interface _ _) _ => true
  | _ => false
  end.

Definition count (p : event -> bool) (t : trace) : nat :=
  List.length (filter p t).

(** What the process holds from libusb after a trace: an initialised
    context, open device handles, claimed interfaces.  A call that reports
    failure acquires nothing; [libusb_release_interface], [libusb_close] and
    [libusb_exit] give the resource up whatever they return (teardown is best
    effort, the program ignores their results). *)
Record resources : Type := mk_resources {
  context_live : bool;
  open_handles : list Z;
  claimed : list (Z * Z)
}.

Definition no_resources : resources := mk_resources false [] [].

Definition same_claim (a b : Z * Z) : bool :=
  (fst a =? fst b) && (snd a =? snd b).

Definition acquire_release (e : event) (r : resources) : resources :=
  match e with
  | Call Libusb_init rep =>
    if rv rep <? 0 then r
    else mk_resources true (open_handles r) (claimed r)
  | Call Libusb_exit _ =>
    mk_resources false (open_handles r) (claimed r)
  | Call (Libusb_open_device_with_vid_pid _ _) rep =>
    if rv rep =? NULL then r
    else mk_resources (context_live r) (rv rep :: open_handles r) (claimed r)
  | Call (Libusb_close h) _ =>
    mk_resources (context_live r)
                 (filter (fun h' => negb (h' =? h)) (open_handles r))
                 (claimed r)
  | Call (Libusb_claim_interface h i) rep =>
    if rv rep <? 0 then r
    else mk_resources (context_live r) (open_handles r) ((h, i) :: claimed r)
  | Call (Libusb_release_interface h i) _ =>
    mk_resources (context_live r) (open_handles r)
                 (filter (fun c => negb (same_claim c (h, i))) (claimed r))
  | _ => r
  end.

Fixpoint held (t : trace) : resources :=
  match t with
  | [] => no_resources
  | e :: t' => acquire_release e (held t')
  end.

(** [LIBUSB_ERROR_TIMEOUT] of libusb.h. *)
Definition LIBUSB_ERROR_TIMEOUT : Z := -7.

(** The calls the program makes for a transfer in a given state. *)
Definition write_call (s : state) (frame : list Z) : usb_call :=
  Libusb_interrupt_transfer (handle (dev s)) EP_OUT frame
                            (Z.of_nat BUFFER_SIZE) USB_TIMEOUT.

Definition read_call (s : state) : usb_call :=
  Libusb_interrupt_transfer (handle (dev s)) EP_IN zero_buffer
                            (Z.of_nat BUFFER_SIZE) USB_TIMEOUT.

(** The frame of the status request and what libusb answers to the two
    transfers of [corsair_get_status] started in state [s]. *)
Definition status_request : list Z := CMD_GET_STATUS :: repeat 0 63.

Definition status_write_reply (usb : usb_oracle) (s : state) : usb_reply :=
  usb (log s) (write_call s status_request).

Definition status_read_reply (usb : usb_oracle) (s : state) : usb_reply :=
  usb (Usleep 50000
         :: Call (write_call s status_request) (status_write_reply usb s)
         :: log s)
      (read_call s).

(** The double nearest to the decimal number with the given count of
    tenths (the value of a literal such as 25.5). *)
Definition tenths_to_double (n : Z) : float :=
  PrimFloat.div (int_to_double n) 10%float.

(** ** Scripted devices and states for concrete runs *)

(** [corsair_device_t dev = {0};] before anything was done. *)
Definition fresh_state : state := mk_state (mk_device NULL zero_buffer) [].

(** A session on handle 1 after a successful [corsair_init]. *)
Definition open_state : state := mk_state (mk_device 1 zero_buffer) [].

(** A device on which every call succeeds, no kernel driver is bound, the
    handle is 1, and every read delivers [frame]. *)
Definition answering (frame : list Z) : usb_oracle :=
  fun _ c =>
    match c with
    | Libusb_open_device_with_vid_pid _ _ => mk_reply 1 []
    | Libusb_interrupt_transfer _ ep _ _ _ =>
      if ep =? EP_IN then mk_reply 0 frame else mk_reply 0 []
    | _ => mk_reply 0 []
    end.

(** [LIBUSB_ERROR_IO] of libusb.h. *)
Definition LIBUSB_ERROR_IO : Z := -1.

Definition is_out_transfer (c : usb_call) : bool :=
  match c with
  | Libusb_interrupt_transfer _ ep _ _ _ => ep =? EP_OUT
  | _ => false
  end.

Definition is_in_transfer (c : usb_call) : bool :=
  match c with
  | Libusb_interrupt_transfer _ ep _ _ _ => ep =? EP_IN
  | _ => false
  end.

Definition is_claim (c : usb_call) : bool :=
  match c with
  | Libusb_claim_interface _ _ => true
  | _ => false
  end.

(** A device that answers the calls picked by [bad] with the error [code]
    and every other call like [answering []]. *)
Definition failing (bad : usb_call -> bool) (code : Z) : usb_oracle :=
  fun t c => if bad c then mk_reply code [] else answering [] t c.

(** The response frame of the specification's decoding example. *)
Definition example_frame : list Z :=
  0 :: [25; 5; 0x0B; 0xB8; 0x0C; 0x1C; 0x0C; 0x1C] ++ repeat 0 55.

(** A frame with the same bytes 1..8 and different bytes everywhere else. *)
Definition noisy_frame : list Z :=
  255 :: [25; 5; 0x0B; 0xB8; 0x0C; 0x1C; 0x0C; 0x1C] ++ repeat 7 55.

(** ** Encoding known telemetry fields *)

(** Modelled from the spec: [build_frame_with_known_fields] is the encoder
    the specification's round-trip property names; the source has no
    encoder for response frames.  The fields go to the offsets the decoder
    reads: the integer part of the temperature at byte 1, its tenths digit at
    byte 2, then pump, fan 1 and fan 2 speed as big-endian 16-bit values at
    bytes 3..8.  The frame around them is built the way
    [corsair_send_command] builds one (lines 111-116), with the eight field
    bytes as payload. *)
Definition known_fields_payload (t_int t_tenths pump fan1 fan2 : Z) : list Z :=
  [t_int; t_tenths;
   pump / 256; pump mod 256;
   fan1 / 256; fan1 mod 256;
   fan2 / 256; fan2 mod 256].

Definition build_frame_with_known_fields
           (opcode t_int t_tenths pump fan1 fan2 : Z) : option (list Z) :=
  command_frame opcode
                (Some (known_fields_payload t_int t_tenths pump fan1 fan2)) 8.

(** The byte pairs (integer part, tenths digit) of the representable
    temperatures. *)
Definition byte_values : list Z := map Z.of_nat (seq 0 256).
Definition digit_values : list Z := map Z.of_nat (seq 0 10).
Definition temperature_pairs : list (Z * Z) := list_prod byte_values digit_values.

(** The decoder's temperature formula on a byte pair. *)
Definition temperature_of_pair (p : Z * Z) : float :=
  PrimFloat.add (int_to_double (fst p))
                (PrimFloat.div (int_to_double (snd p)) 10%float).

(** ** Replies at the start of [corsair_init] *)

Definition init_reply (usb : usb_oracle) (s : state) : usb_reply :=
  usb (log s) Libusb_init.

Definition open_reply (usb : usb_oracle) (s : state) : usb_reply :=
  usb (Call Libusb_init (init_reply usb s) :: log s)
      (Libusb_open_device_with_vid_pid CORSAIR_VID H80I_V2_PID).

Definition is_open (c : usb_call) : bool :=
  match c with
  | Libusb_open_device_with_vid_pid _ _ => true
  | _ => false
  end.

(** [libusb_close] on the handle [h]. *)
Definition closes (h : Z) (e : event) : bool :=
  match e with
  | Call (Libusb_close h') _ => h' =? h
  | _ => false
  end.

(** ** The entry point *)

(** Replaces the whole device structure ([corsair_device_t dev = {0};]). *)
Definition set_dev (d : corsair_device_t) : M unit :=
  fun s => Val tt (mk_state d (log s)).

(** [sleep(sec)]: recorded in the trace as the pause it is, in
    microseconds. *)
Definition sleep (sec : Z) : M unit := usleep (sec * 1000000).

Section Entry_point.

Variable usb : usb_oracle.

(** Lines 230-250 of [main]: the commands between [corsair_init] and
    [corsair_close].  Their results are dropped, as in the source. *)
Definition main_commands : M unit :=
  printf "Device connected successfully\n\n" [] ;;
  corsair_get_status usb ;;
  printf "\nSetting pump to 70%%...\n" [] ;;
  corsair_set_pump_speed usb 70 ;;
  printf "Setting fans to 60%%...\n" [] ;;
  corsair_set_fan_speed usb 0 60 ;;
  corsair_set_fan_speed usb 1 60 ;;
  printf "Setting LED to blue pulse...\n" [] ;;
  corsair_set_led usb LED_MODE_PULSE 0 0 255 ;;
  sleep 2 ;;
  printf "\nUpdated status:\n" [] ;;
  corsair_get_status usb ;;
  Return tt.

(** Lines 217-257; [argc] and [argv] are not used. *)
Definition main : M Z :=
  set_dev (mk_device NULL zero_buffer) ;;
  printf "Corsair H80i V2 Control Utility\n" [] ;;
  printf "-------------------------------\n" [] ;;
  ret <- corsair_init usb ;;
  if ret <? 0 then Return 1
  else
    main_commands ;;
    corsair_close usb ;;
    printf "\nDevice closed\n" [] ;;
    Return 0.

End Entry_point.

(** ** Sessions *)

(** The handle a transfer is addressed to. *)
Definition transfer_handle (e : event) : option Z :=
  match e with
  | Call (Libusb_interrupt_transfer h _ _ _ _) _ => Some h
  | _ => None
  end.

(** Every transfer of the trace was made on a handle that was open, with
    interface 0 claimed, at the time of the transfer. *)
Fixpoint transfers_in_session (t : trace) : bool :=
  match t with
  | [] => true
  | e :: t' =>
    match transfer_handle e with
    | Some h =>
      existsb (Z.eqb h) (open_handles (held t'))
      && existsb (same_claim (h, 0)) (claimed (held t'))
    | None => true
    end && transfers_in_session t'
  end.

(** The state between a successful [corsair_init] and [corsair_close]:
    the device structure points at the one open handle, interface 0 of it is
    claimed, and the buffer has its 64 bytes. *)
Definition session (s : state) : Prop :=
  handle (dev s) <> NULL
  /\ held (log s) = mk_resources true [handle (dev s)] [(handle (dev s), 0)]
  /\ transfers_in_session (log s) = true
  /\ List.length (buffer (dev s)) = BUFFER_SIZE.

(** The frames [frames] (oldest first) as they appear in [sent_frames]. *)
Definition on_wire (frames : list (list Z)) : list (list Z * Z) :=
  map (fun f => (f, 64)) (rev frames).

(** A computation that runs inside a session: started in one, it returns,
    is still in the session on the same handle, and has written exactly
    [frames] to the device, in this order. *)
Definition steady {A : Type} (frames : list (list Z)) (m : M A) : Prop :=
  forall s, session s ->
    exists a s',
      m s = Val a s'
      /\ session s'
      /\ handle (dev s') = handle (dev s)
      /\ sent_frames (log s') = on_wire frames ++ sent_frames (log s).

(** Output and pauses touch neither the device nor libusb. *)
Definition quiet (e : event) : Prop :=
  match e with
  | Call _ _ => False
  | _ => True
  end.

(** The frames [main] writes when [corsair_init] succeeds, oldest first. *)
Definition main_frames : list (list Z) :=
  [CMD_INIT :: repeat 0 63;
   CMD_GET_STATUS :: repeat 0 63;
   CMD_SET_PUMP :: [70; 0] ++ repeat 0 61;
   CMD_SET_FAN :: [0; 60] ++ repeat 0 61;
   CMD_SET_FAN :: [1; 60] ++ repeat 0 61;
   CMD_SET_LED :: [LED_MODE_PULSE; 0; 0; 255] ++ repeat 0 59;
   CMD_GET_STATUS :: repeat 0 63].

(** A device that delivers only the first [n] bytes of [frame] to a read. *)
Definition short_answering (n : nat) (frame : list Z) : usb_oracle :=
  answering (firstn n frame).

(** * The connection test, [h80i_control.c]

    The second program of the repository only opens the device, claims
    interface 0 and lets go of it again.  It has an explicit libusb context
    [ctx] and no device structure, so its state is the trace alone. *)

Module H80i_control.

Definition H80I_V2_PID : Z := 0x0c04.

(** [LIBUSB_OPTION_LOG_LEVEL] of libusb.h. *)
Definition LIBUSB_OPTION_LOG_LEVEL : Z := 0.

Inductive call : Type :=
| Init                                         (* libusb_init(&ctx) *)
| Set_option (ctx option value : Z)
| Open_device_with_vid_pid (ctx vid pid : Z)
| Kernel_driver_active (h iface : Z)
| Detach_kernel_driver (h iface : Z)
| Claim_interface (h iface : Z)
| Release_interface (h iface : Z)
| Close (h : Z)
| Exit (ctx : Z).

(** The returned [int] or pointer, and for [libusb_init] the context it
    stores through [&ctx]. *)
Record reply : Type := mk_reply {
  ret : Z;
  ctx_out : Z
}.

Inductive event : Type :=
| Called (c : call) (r : reply)
| Printed (fmt : string)
| Printed_stderr (fmt : string) (args : list printf_arg).

(** Newest event first. *)
Definition oracle : Type := list event -> call -> reply.

Definition P (A : Type) : Type := list event -> A * list event.

Definition Ret {A : Type} (a : A) : P A := fun t => (a, t).

Definition Seq {A B : Type} (m : P A) (k : A -> P B) : P B :=
  fun t => let (a, t') := m t in k a t'.

Definition say (e : event) : P unit := fun t => (tt, e :: t).

Section Program.

Variable usb : oracle.

Definition libusb (c : call) : P reply :=
  fun t => let r := usb t c in (r, Called c r :: t).

(** Lines 35-44: [true] when the block leaves [main] (with 1). *)
Definition detach_if_active (dev_handle ctx : Z) : P bool :=
  Seq (libusb (Kernel_driver_active dev_handle 0)) (fun active =>
  if ret active =? 1 then
    Seq (say (Printed "Kernel driver active, detaching...\n")) (fun _ =>
    Seq (libusb (Detach_kernel_driver dev_handle 0)) (fun d =>
    if negb (ret d =? 0) then
      Seq (say (Printed_stderr "Error detaching kernel driver\n" [])) (fun _ =>
      Seq (libusb (Close dev_handle)) (fun _ =>
      Seq (libusb (Exit ctx)) (fun _ =>
      Ret true)))
    else Ret false))
  else Ret false).

(** Lines 10-73; [devs] and [cnt] are not used. *)
Definition main : P Z :=
  Seq (libusb Init) (fun r =>
  if ret r <? 0 then
    Seq (say (Printed_stderr "Error initializing libusb: %s\n"
                             [Arg_error_name (ret r)])) (fun _ =>
    Ret 1)
  else
    let ctx := ctx_out r in
    Seq (libusb (Set_option ctx LIBUSB_OPTION_LOG_LEVEL 3)) (fun _ =>
    Seq (libusb (Open_device_with_vid_pid ctx CORSAIR_VID H80I_V2_PID))
        (fun opened =>
    let dev_handle := ret opened in
    if dev_handle =? NULL then
      Seq (say (Printed_stderr "Error: Could not find/open H80i v2 device\n"
                               [])) (fun _ =>
      Seq (libusb (Exit ctx)) (fun _ =>
      Ret 1))
    else
      Seq (detach_if_active dev_handle ctx) (fun left_early =>
      if left_early then Ret 1
      else
        Seq (libusb (Claim_interface dev_handle 0)) (fun r =>
        if ret r <? 0 then
          Seq (say (Printed_stderr "Error claiming interface: %s\n"
                                   [Arg_error_name (ret r)])) (fun _ =>
          Seq (libusb (Close dev_handle)) (fun _ =>
          Seq (libusb (Exit ctx)) (fun _ =>
          Ret 1)))
        else
          Seq (say (Printed "Successfully connected to H80i v2\n")) (fun _ =>
          Seq (libusb (Release_interface dev_handle 0)) (fun _ =>
          Seq (libusb (Close dev_handle)) (fun _ =>
          Seq (libusb (Exit ctx)) (fun _ =>
          Ret 0))))))))).

End Program.

(** What the process holds after a trace; a failed call acquires nothing,
    the releasing calls give up whatever they return. *)
Record resources : Type := mk_resources {
  contexts : list Z;
  handles : list Z;
  claims : list (Z * Z)
}.

Definition nothing : resources := mk_resources [] [] [].

Definition without (x : Z) (l : list Z) : list Z :=
  filter (fun y => negb (y =? x)) l.

Definition account (e : event) (r : resources) : resources :=
  match e with
  | Called Init rep =>
    if ret rep <? 0 then r
    else mk_resources (ctx_out rep :: contexts r) (handles r) (claims r)
  | Called (Exit ctx) _ =>
    mk_resources (without ctx (contexts r)) (handles r) (claims r)
  | Called (Open_device_with_vid_pid _ _ _) rep =>
    if ret rep =? NULL then r
    else mk_resources (contexts r) (ret rep :: handles r) (claims r)
  | Called (Close h) _ =>
    mk_resources (contexts r) (without h (handles r)) (claims r)
  | Called (Claim_interface h i) rep =>
    if ret rep <? 0 then r
    else mk_resources (contexts r) (handles r) ((h, i) :: claims r)
  | Called (Release_interface h i) _ =>
    mk_resources (contexts r) (handles r)
                 (filter (fun c => negb (same_claim c (h, i))) (claims r))
  | _ => r
  end.

Fixpoint held (t : list event) : resources :=
  match t with
  | [] => nothing
  | e :: t' => account e (held t')
  end.

(** A claim that libusb granted. *)
Definition granted_claim (e : event) : bool :=
  match e with
  | Called (Claim_interface _ _) rep => negb (ret rep <? 0)
  | _ => false
  end.

Definition is_detach (e : event) : bool :=
  match e with
  | Called (Detach_kernel_driver _ _) _ => true
  | _ => false
  end.

(** A device on handle 7 in context 3 whose kernel driver is bound and on
    which every call succeeds, except that the calls picked by [bad] give
    the result [code]. *)
Definition scripted (bad : call -> bool) (code : Z) : oracle :=
  fun _ c =>
    if bad c then mk_reply code 0
    else match c with
         | Init => mk_reply 0 3
         | Open_device_with_vid_pid _ _ _ => mk_reply 7 0
         | Kernel_driver_active _ _ => mk_reply 1 0
         | _ => mk_reply 0 0
         end.

Definition is_claim_call (c : call) : bool :=
  match c with
  | Claim_interface _ _ => true
  | _ => false
  end.

Definition no_call (c : call) : bool := false.

End H80i_control.

(** * Properties *)

(** ** Arithmetic of the 16-bit fields *)

Lemma land_shifted_byte (hi lo : Z) :
  uchar lo -> Z.land (Z.shiftl hi 8) lo = 0.
Proof.
  intros Hlo. apply Z.bits_inj'. intros n Hn.
  rewrite Z.land_spec, Z.bits_0.
  destruct (Z.lt_ge_cases n 8) as [Hlt | Hge].
  - rewrite Z.shiftl_spec_low by lia. reflexivity.
  - assert (Z.testbit lo n = false) as ->.
    { destruct (Z.eq_dec lo 0) as [-> | Hnz]; [apply Z.bits_0 |].
      apply Z.bits_above_log2; [unfold uchar in Hlo; lia |].
      assert (Z.log2 lo < 8); [| lia].
      apply Z.log2_lt_pow2; unfold uchar in Hlo; lia. }
    apply andb_false_r.
Qed.

Lemma big_endian_16 (hi lo : Z) :
  uchar lo -> Z.lor (Z.shiftl hi 8) lo = 256 * hi + lo.
Proof.
  intros Hlo.
  rewrite <- Z.lxor_lor by (apply land_shifted_byte; assumption).
  rewrite <- Z.add_nocarry_lxor by (apply land_shifted_byte; assumption).
  rewrite Z.shiftl_mul_pow2 by lia. change (2 ^ 8) with 256. lia.
Qed.

Lemma nth_uchar (frame : list Z) (i : nat) :
  Forall uchar frame -> uchar (nth i frame 0).
Proof.
  intros Hall. destruct (Nat.lt_ge_cases i (List.length frame)) as [Hlt | Hge].
  - rewrite Forall_forall in Hall. apply Hall, nth_In, Hlt.
  - rewrite nth_overflow by assumption. unfold uchar. lia.
Qed.

Lemma decode_status_formula (frame : list Z) :
  Forall uchar frame ->
  decode_status frame =
  mk_status
    (PrimFloat.add (int_to_double (nth 1 frame 0))
                   (PrimFloat.div (int_to_double (nth 2 frame 0)) 10%float))
    (256 * nth 3 frame 0 + nth 4 frame 0)
    (256 * nth 5 frame 0 + nth 6 frame 0)
    (256 * nth 7 frame 0 + nth 8 frame 0).
Proof.
  intros Hall. unfold decode_status, liquid_temperature, pump_speed,
    fan1_speed, fan2_speed.
  rewrite !big_endian_16 by (apply nth_uchar; assumption).
  reflexivity.
Qed.

(** ** Buffers *)

Lemma skipn_repeat {A : Type} (a : A) (k n : nat) :
  skipn k (repeat a n) = repeat a (n - k).
Proof.
  revert n. induction k as [| k IH]; intros n.
  - now rewrite Nat.sub_0_r.
  - destruct n as [| n]; [reflexivity | apply IH].
Qed.

Lemma deliver_full (frame buf : list Z) :
  List.length frame = List.length buf -> deliver frame buf = frame.
Proof.
  intros Hlen. unfold deliver.
  rewrite <- Hlen, firstn_all, skipn_all2 by lia. apply app_nil_r.
Qed.

(** ** Runs of the transfer functions *)

Section Runs.

Variable usb : usb_oracle.

Lemma send_command_run (cmd : Z) (data : option (list Z)) (data_len : Z)
      (frame : list Z) (s : state) :
  command_frame cmd data data_len = Some frame ->
  corsair_send_command usb cmd data data_len s =
  let r := usb (log s) (write_call s frame) in
  let d := mk_device (handle (dev s)) frame in
  if rv r <? 0
  then Val (rv r)
           (mk_state d (Fprintf_stderr "Failed to send command: %s\n"
                                       [Arg_error_name (rv r)]
                          :: Call (write_call s frame) r :: log s))
  else Val 0 (mk_state d (Call (write_call s frame) r :: log s)).
Proof.
  intros Hframe. unfold corsair_send_command. rewrite Hframe.
  unfold Bind, set_buffer, interrupt_transfer_out, Bind, get_handle,
    get_buffer, libusb, Return, write_call. cbn [dev log handle buffer].
  destruct (rv _ <? 0); reflexivity.
Qed.

Lemma receive_response_run (s : state) :
  corsair_receive_response usb s =
  let r := usb (log s) (read_call s) in
  let d := mk_device (handle (dev s)) (deliver (rx r) zero_buffer) in
  if rv r <? 0
  then Val (rv r)
           (mk_state d (Fprintf_stderr "Failed to receive response: %s\n"
                                       [Arg_error_name (rv r)]
                          :: Call (read_call s) r :: log s))
  else Val (Z.of_nat (List.length (firstn (List.length zero_buffer) (rx r))))
           (mk_state d (Call (read_call s) r :: log s)).
Proof.
  unfold corsair_receive_response, Bind, set_buffer, interrupt_transfer_in,
    Bind, get_handle, get_buffer, libusb, set_buffer, Return, read_call.
  cbn [dev log handle buffer].
  destruct (rv _ <? 0); reflexivity.
Qed.

End Runs.

(** ** The three ways through [corsair_get_status] *)

Section Get_status.

Variable usb : usb_oracle.

Lemma status_request_frame :
  command_frame CMD_GET_STATUS None 0 = Some status_request.
Proof. reflexivity. Qed.

Lemma get_status_write_fails (s : state) :
  rv (status_write_reply usb s) < 0 ->
  corsair_get_status usb s =
  Val (rv (status_write_reply usb s))
      (mk_state (mk_device (handle (dev s)) status_request)
                (Fprintf_stderr "Failed to send command: %s\n"
                                [Arg_error_name (rv (status_write_reply usb s))]
                   :: Call (write_call s status_request)
                           (status_write_reply usb s)
                   :: log s)).
Proof.
  intros Hw. unfold corsair_get_status, Bind.
  rewrite (send_command_run usb _ _ _ _ s status_request_frame).
  fold (status_write_reply usb s). cbv zeta.
  apply Z.ltb_lt in Hw. rewrite Hw. unfold Return. rewrite Hw. reflexivity.
Qed.

Lemma get_status_read_fails (s : state) :
  0 <= rv (status_write_reply usb s) ->
  rv (status_read_reply usb s) < 0 ->
  corsair_get_status usb s =
  Val (rv (status_read_reply usb s))
      (mk_state (mk_device (handle (dev s))
                           (deliver (rx (status_read_reply usb s)) zero_buffer))
                (Fprintf_stderr "Failed to receive response: %s\n"
                                [Arg_error_name (rv (status_read_reply usb s))]
                   :: Call (read_call s) (status_read_reply usb s)
                   :: Usleep 50000
                   :: Call (write_call s status_request)
                           (status_write_reply usb s)
                   :: log s)).
Proof.
  intros Hw Hr. unfold corsair_get_status, Bind.
  rewrite (send_command_run usb _ _ _ _ s status_request_frame).
  fold (status_write_reply usb s). cbv zeta.
  apply Z.ltb_ge in Hw. rewrite Hw. cbn [Z.ltb Z.compare].
  unfold usleep, emit. cbn [dev log].
  rewrite receive_response_run. cbn [dev log handle].
  change (read_call (mk_state _ _)) with (read_call s).
  fold (status_read_reply usb s).
  cbv zeta. apply Z.ltb_lt in Hr. rewrite Hr. unfold Return. rewrite Hr.
  reflexivity.
Qed.

Lemma get_status_ok (s : state) :
  0 <= rv (status_write_reply usb s) ->
  0 <= rv (status_read_reply usb s) ->
  let buf := deliver (rx (status_read_reply usb s)) zero_buffer in
  corsair_get_status usb s =
  Val 0
      (mk_state (mk_device (handle (dev s)) buf)
                (Printf "Fan 2 Speed: %d RPM\n" [Arg_int (fan2_speed buf)]
                   :: Printf "Fan 1 Speed: %d RPM\n" [Arg_int (fan1_speed buf)]
                   :: Printf "Pump Speed: %d RPM\n" [Arg_int (pump_speed buf)]
                   :: Printf "Liquid Temperature: %.1f°C\n"
                             [Arg_double (liquid_temperature buf)]
                   :: Printf "---------------\n" []
                   :: Printf "H80i V2 Status:\n" []
                   :: Call (read_call s) (status_read_reply usb s)
                   :: Usleep 50000
                   :: Call (write_call s status_request)
                           (status_write_reply usb s)
                   :: log s)).
Proof.
  intros Hw Hr buf. unfold corsair_get_status, Bind.
  rewrite (send_command_run usb _ _ _ _ s status_request_frame).
  fold (status_write_reply usb s). cbv zeta.
  apply Z.ltb_ge in Hw. rewrite Hw. cbn [Z.ltb Z.compare].
  unfold usleep, emit. cbn [dev log].
  rewrite receive_response_run. cbn [dev log handle].
  change (read_call (mk_state _ _)) with (read_call s).
  fold (status_read_reply usb s).
  cbv zeta. apply Z.ltb_ge in Hr. rewrite Hr.
  assert ((Z.of_nat (List.length (firstn (List.length zero_buffer)
                                         (rx (status_read_reply usb s)))) <? 0)
          = false) as -> by (apply Z.ltb_ge, Nat2Z.is_nonneg).
  reflexivity.
Qed.

End Get_status.

(** ** Status decode *)

(** C1.  For every 64-byte response frame that the device delivers to a
    successful status query, [corsair_get_status] returns 0, leaves the frame
    in the buffer and prints exactly: temperature [frame[1] + frame[2]/10.0]
    (in double arithmetic), pump speed [256*frame[3] + frame[4]], fan 1 speed
    [256*frame[5] + frame[6]], fan 2 speed [256*frame[7] + frame[8]]; these are
    the fields of [decode_status frame].  When bytes 1..8 of the frame are
    25, 5, 0x0B, 0xB8, 0x0C, 0x1C, 0x0C, 0x1C the readings are 25.5, 3000,
    3100 and 3100. *)
Theorem get_status_decodes_frame (usb : usb_oracle) (s : state)
        (frame : list Z) :
  List.length frame = 64%nat ->
  Forall uchar frame ->
  0 <= rv (status_write_reply usb s) ->
  0 <= rv (status_read_reply usb s) ->
  rx (status_read_reply usb s) = frame ->
  let b := fun i => nth i frame 0 in
  let t := PrimFloat.add (int_to_double (b 1%nat))
                         (PrimFloat.div (int_to_double (b 2%nat)) 10%float) in
  let pump := 256 * b 3%nat + b 4%nat in
  let fan1 := 256 * b 5%nat + b 6%nat in
  let fan2 := 256 * b 7%nat + b 8%nat in
  corsair_get_status usb s =
  Val 0
      (mk_state (mk_device (handle (dev s)) frame)
                (Printf "Fan 2 Speed: %d RPM\n" [Arg_int fan2]
                   :: Printf "Fan 1 Speed: %d RPM\n" [Arg_int fan1]
                   :: Printf "Pump Speed: %d RPM\n" [Arg_int pump]
                   :: Printf "Liquid Temperature: %.1f°C\n" [Arg_double t]
                   :: Printf "---------------\n" []
                   :: Printf "H80i V2 Status:\n" []
                   :: Call (read_call s) (status_read_reply usb s)
                   :: Usleep 50000
                   :: Call (write_call s status_request)
                           (status_write_reply usb s)
                   :: log s))
  /\ decode_status frame = mk_status t pump fan1 fan2
  /\ (firstn 8 (skipn 1 frame) = [25; 5; 0x0B; 0xB8; 0x0C; 0x1C; 0x0C; 0x1C] ->
      decode_status frame = mk_status 25.5%float 3000 3100 3100).
Proof.
  intros Hlen Hbytes Hw Hr Hrx b t pump fan1 fan2.
  pose proof (decode_status_formula frame Hbytes) as Hdec.
  fold b in Hdec. fold t pump fan1 fan2 in Hdec.
  split; [| split].
  - rewrite (get_status_ok usb s Hw Hr). cbv zeta. rewrite Hrx.
    rewrite deliver_full by (rewrite Hlen; reflexivity).
    unfold pump_speed, fan1_speed, fan2_speed.
    rewrite !big_endian_16 by (apply nth_uchar; assumption). reflexivity.
  - exact Hdec.
  - intros Hfields. rewrite Hdec.
    destruct frame as [| b0 [| b1 [| b2 [| b3 [| b4 [| b5 [| b6 [| b7
      [| b8 rest]]]]]]]]]; try discriminate Hlen.
    cbn [firstn skipn] in Hfields.
    injection Hfields as -> -> -> -> -> -> -> ->.
    subst t pump fan1 fan2 b. cbn [nth]. vm_compute. reflexivity.
Qed.

Lemma get_status_decodes_frame_witness :
  corsair_get_status (answering example_frame) open_state =
  Val 0
      (mk_state (mk_device 1 example_frame)
                [Printf "Fan 2 Speed: %d RPM\n" [Arg_int 3100];
                 Printf "Fan 1 Speed: %d RPM\n" [Arg_int 3100];
                 Printf "Pump Speed: %d RPM\n" [Arg_int 3000];
                 Printf "Liquid Temperature: %.1f°C\n" [Arg_double 25.5%float];
                 Printf "---------------\n" [];
                 Printf "H80i V2 Status:\n" [];
                 Call (read_call open_state) (mk_reply 0 example_frame);
                 Usleep 50000;
                 Call (write_call open_state status_request) (mk_reply 0 [])]).
Proof.
  refine (proj1 (get_status_decodes_frame (answering example_frame) open_state
                   example_frame _ _ _ _ _)).
  - reflexivity.
  - unfold example_frame, uchar. cbn [app repeat].
    repeat (constructor; [lia |]). constructor.
  - vm_compute. discriminate.
  - vm_compute. discriminate.
  - reflexivity.
Defined.

(** C9.  The decoded readings depend on bytes 1..8 of the response frame
    only: two frames that agree there decode to the same status, and two
    successful status queries that receive such frames print the same six
    report lines, whatever the other bytes are. *)
Theorem status_ignores_other_bytes (usb1 usb2 : usb_oracle) (s1 s2 : state)
        (f g : list Z) :
  List.length f = 64%nat ->
  List.length g = 64%nat ->
  (forall i, (1 <= i <= 8)%nat -> nth i f 0 = nth i g 0) ->
  decode_status f = decode_status g
  /\ (0 <= rv (status_write_reply usb1 s1) ->
      0 <= rv (status_read_reply usb1 s1) ->
      rx (status_read_reply usb1 s1) = f ->
      0 <= rv (status_write_reply usb2 s2) ->
      0 <= rv (status_read_reply usb2 s2) ->
      rx (status_read_reply usb2 s2) = g ->
      exists s1' s2',
        corsair_get_status usb1 s1 = Val 0 s1'
        /\ corsair_get_status usb2 s2 = Val 0 s2'
        /\ firstn 6 (log s1') = firstn 6 (log s2')).
Proof.
  intros Hf Hg Hagree.
  assert (decode_status f = decode_status g) as Hdec.
  { unfold decode_status, liquid_temperature, pump_speed, fan1_speed,
      fan2_speed.
    rewrite !Hagree by lia. reflexivity. }
  split; [exact Hdec |].
  intros Hw1 Hr1 Hrx1 Hw2 Hr2 Hrx2.
  rewrite (get_status_ok usb1 s1 Hw1 Hr1), (get_status_ok usb2 s2 Hw2 Hr2).
  cbv zeta. rewrite Hrx1, Hrx2.
  rewrite !deliver_full by (rewrite ?Hf, ?Hg; reflexivity).
  eexists; eexists. split; [reflexivity |]. split; [reflexivity |].
  cbn [log firstn]. unfold decode_status in Hdec.
  injection Hdec as -> -> -> ->. reflexivity.
Qed.

Lemma status_ignores_other_bytes_witness :
  example_frame <> noisy_frame
  /\ decode_status example_frame = decode_status noisy_frame
  /\ exists s1' s2',
       corsair_get_status (answering example_frame) open_state = Val 0 s1'
       /\ corsair_get_status (answering noisy_frame) open_state = Val 0 s2'
       /\ firstn 6 (log s1') = firstn 6 (log s2').
Proof.
  split; [discriminate |].
  assert (forall i, (1 <= i <= 8)%nat ->
                    nth i example_frame 0 = nth i noisy_frame 0) as Hagree.
  { intros i Hi.
    do 9 (destruct i as [| i]; [first [reflexivity | exfalso; lia] |]).
    exfalso; lia. }
  destruct (status_ignores_other_bytes
              (answering example_frame) (answering noisy_frame)
              open_state open_state example_frame noisy_frame
              eq_refl eq_refl Hagree) as [Hdec Hruns].
  split; [exact Hdec |].
  apply Hruns; first [reflexivity | vm_compute; discriminate].
Defined.

(** ** Round trip of known fields *)

Lemma in_range (n : nat) (z : Z) :
  0 <= z < Z.of_nat n -> In z (map Z.of_nat (seq 0 n)).
Proof.
  intros Hz. rewrite <- (Z2Nat.id z) by lia.
  apply in_map, in_seq. lia.
Qed.

Lemma temperature_pairs_exact :
  map temperature_of_pair temperature_pairs =
  map (fun p => tenths_to_double (10 * fst p + snd p)) temperature_pairs.
Proof. vm_compute. reflexivity. Qed.

Lemma temperature_of_tenths (t_int t_tenths : Z) :
  uchar t_int -> 0 <= t_tenths <= 9 ->
  PrimFloat.add (int_to_double t_int)
                (PrimFloat.div (int_to_double t_tenths) 10%float) =
  tenths_to_double (10 * t_int + t_tenths).
Proof.
  intros Hi Hd.
  assert (In (t_int, t_tenths) temperature_pairs) as Hin.
  { apply in_prod; apply in_range; unfold uchar in Hi; cbn; lia. }
  pose proof temperature_pairs_exact as Hall.
  rewrite map_ext_in_iff in Hall. exact (Hall _ Hin).
Qed.

Lemma split_16 (v : Z) :
  uint16 v -> Z.lor (Z.shiftl (v / 256) 8) (v mod 256) = v.
Proof.
  intros Hv. rewrite big_endian_16.
  - symmetry. apply Z.div_mod. lia.
  - unfold uchar. apply Z.mod_pos_bound. lia.
Qed.

(** C7.  Known fields laid out at the decoder's offsets come back exactly:
    for a temperature with integer part [t_int] (a byte) and tenths digit
    [t_tenths], and 16-bit pump and fan speeds, the frame built from them is
    64 bytes long and decodes to the temperature [t_int.t_tenths] (as a
    double) and the same three speeds. *)
Theorem decode_known_fields (opcode t_int t_tenths pump fan1 fan2 : Z) :
  uchar t_int -> 0 <= t_tenths <= 9 ->
  uint16 pump -> uint16 fan1 -> uint16 fan2 ->
  exists frame,
    build_frame_with_known_fields opcode t_int t_tenths pump fan1 fan2
    = Some frame
    /\ List.length frame = 64%nat
    /\ decode_status frame =
       mk_status (tenths_to_double (10 * t_int + t_tenths)) pump fan1 fan2.
Proof.
  intros Hi Hd Hp Hf1 Hf2.
  exists (opcode :: known_fields_payload t_int t_tenths pump fan1 fan2
                 ++ repeat 0 55).
  split; [reflexivity |]. split; [reflexivity |].
  unfold decode_status, liquid_temperature, pump_speed, fan1_speed,
    fan2_speed, known_fields_payload. cbn [nth app].
  rewrite !split_16 by assumption.
  rewrite temperature_of_tenths by assumption. reflexivity.
Qed.

Lemma decode_known_fields_witness :
  exists frame,
    build_frame_with_known_fields CMD_GET_STATUS 25 5 3000 3100 3100
    = Some frame
    /\ List.length frame = 64%nat
    /\ decode_status frame = mk_status 25.5%float 3000 3100 3100.
Proof.
  apply (decode_known_fields CMD_GET_STATUS 25 5 3000 3100 3100);
    unfold uchar, uint16; lia.
Defined.

(** ** Command frames *)

Lemma command_frame_payload (cmd : Z) (payload : list Z) :
  (List.length payload <= 63)%nat ->
  command_frame cmd (Some payload) (Z.of_nat (List.length payload)) =
  Some (cmd :: payload ++ repeat 0 (63 - List.length payload)).
Proof.
  intros Hlen. unfold command_frame.
  change (store zero_buffer 0 cmd) with (cmd :: repeat 0 63).
  destruct (0 <? Z.of_nat (List.length payload)) eqn:Hpos.
  - unfold memcpy. rewrite Nat2Z.id.
    rewrite Nat.leb_refl. cbn [andb List.length].
    rewrite repeat_length.
    replace (Nat.leb (1 + List.length payload) 64) with true
      by (symmetry; apply Nat.leb_le; lia).
    rewrite firstn_all. cbn [firstn skipn Nat.add app].
    rewrite skipn_repeat. reflexivity.
  - apply Z.ltb_ge in Hpos.
    destruct payload as [| b payload]; [reflexivity | cbn in Hpos; lia].
Qed.

Lemma command_frame_empty (cmd : Z) (data : option (list Z)) (data_len : Z) :
  data = None \/ data_len <= 0 ->
  command_frame cmd data data_len = Some (cmd :: repeat 0 63).
Proof.
  intros Hempty. unfold command_frame.
  change (store zero_buffer 0 cmd) with (cmd :: repeat 0 63).
  destruct data as [src |]; [| reflexivity].
  destruct Hempty as [Hnull | Hlen]; [discriminate |].
  apply Z.ltb_ge in Hlen. rewrite Hlen. reflexivity.
Qed.

Lemma command_frame_overflow (cmd : Z) (payload : list Z) :
  (63 < List.length payload)%nat ->
  command_frame cmd (Some payload) (Z.of_nat (List.length payload)) = None.
Proof.
  intros Hlen. unfold command_frame.
  change (store zero_buffer 0 cmd) with (cmd :: repeat 0 63).
  replace (0 <? Z.of_nat (List.length payload)) with true
    by (symmetry; apply Z.ltb_lt; lia).
  unfold memcpy. rewrite Nat2Z.id. cbn [List.length]. rewrite repeat_length.
  replace (Nat.leb (1 + List.length payload) 64) with false
    by (symmetry; apply Nat.leb_gt; lia).
  rewrite andb_false_r. reflexivity.
Qed.

(** What a run of [corsair_send_command] on a well-formed frame leaves
    behind: one more frame on the wire, of the full buffer length, and the
    frame in the buffer. *)
Lemma send_command_sends (usb : usb_oracle) (cmd : Z)
      (data : option (list Z)) (data_len : Z) (frame : list Z) (s : state) :
  command_frame cmd data data_len = Some frame ->
  exists ret s',
    corsair_send_command usb cmd data data_len s = Val ret s'
    /\ sent_frames (log s') = (frame, 64) :: sent_frames (log s)
    /\ buffer (dev s') = frame
    /\ handle (dev s') = handle (dev s).
Proof.
  intros Hframe. rewrite (send_command_run usb _ _ _ _ s Hframe). cbv zeta.
  destruct (rv _ <? 0); eexists; eexists;
    (split; [reflexivity |]); repeat split.
Qed.

Lemma send_command_returns_after_transfer (usb : usb_oracle) (cmd : Z)
      (data : option (list Z)) (data_len : Z) (s : state) (ret : Z)
      (s' : state) :
  corsair_send_command usb cmd data data_len s = Val ret s' ->
  exists frame, sent_frames (log s') = (frame, 64) :: sent_frames (log s).
Proof.
  intros Hrun. destruct (command_frame cmd data data_len) as [frame |] eqn:Hf.
  - destruct (send_command_sends usb cmd data data_len frame s Hf)
      as (ret0 & s0 & Hrun0 & Hsent & _).
    rewrite Hrun in Hrun0. injection Hrun0 as <- <-.
    exists frame. exact Hsent.
  - unfold corsair_send_command in Hrun. rewrite Hf in Hrun. discriminate.
Qed.

(** C3.  For every opcode and every payload of at most 63 bytes,
    [corsair_send_command] builds a frame of exactly 64 bytes with the opcode
    at offset 0, the payload at offsets 1..L and zeros from offset L+1 to the
    end, and hands exactly this frame to one OUT transfer with length 64,
    whatever the payload length is. *)
Theorem send_command_frame_layout (usb : usb_oracle) (s : state) (cmd : Z)
        (payload : list Z) :
  (List.length payload <= 63)%nat ->
  exists frame ret s',
    corsair_send_command usb cmd (Some payload)
                         (Z.of_nat (List.length payload)) s = Val ret s'
    /\ sent_frames (log s') = (frame, 64) :: sent_frames (log s)
    /\ buffer (dev s') = frame
    /\ List.length frame = 64%nat
    /\ nth 0 frame 0 = cmd
    /\ (forall i, (i < List.length payload)%nat ->
                  nth (1 + i) frame 0 = nth i payload 0)
    /\ (forall i, (List.length payload + 1 <= i < 64)%nat ->
                  nth i frame 0 = 0).
Proof.
  intros Hlen.
  destruct (send_command_sends usb cmd _ _ _ s
              (command_frame_payload cmd payload Hlen))
    as (ret & s' & Hrun & Hsent & Hbuf & _).
  eexists; exists ret, s'.
  split; [exact Hrun |]. split; [exact Hsent |]. split; [exact Hbuf |].
  split; [| split; [reflexivity | split]].
  - cbn [List.length]. rewrite length_app, repeat_length. lia.
  - intros i Hi. cbn [Nat.add nth]. apply app_nth1. exact Hi.
  - intros i Hi. destruct i as [| j]; [lia |]. cbn [nth].
    rewrite app_nth2 by lia. apply nth_repeat.
Qed.

Lemma send_command_frame_layout_witness :
  exists ret s',
    corsair_send_command (answering example_frame) CMD_SET_LED
                         (Some [LED_MODE_PULSE; 0; 0; 255]) 4 open_state
    = Val ret s'
    /\ sent_frames (log s')
       = [(CMD_SET_LED :: [LED_MODE_PULSE; 0; 0; 255] ++ repeat 0 59, 64)].
Proof.
  destruct (send_command_frame_layout (answering example_frame) open_state
              CMD_SET_LED [LED_MODE_PULSE; 0; 0; 255])
    as (frame & ret & s' & Hrun & Hsent & _).
  - cbn. lia.
  - exists ret, s'. split; [exact Hrun |].
    cbn in Hrun. injection Hrun as <- <-. reflexivity.
Defined.

(** C4.  A payload of more than 63 bytes is not rejected:
    [corsair_send_command] has no length check, the [memcpy] at line 115
    runs past the end of the 64-byte buffer (undefined behaviour), and no
    run of the function returns without having started a transfer, so no
    return value can stand for a payload that is too large. *)
Theorem send_command_oversized_payload (usb : usb_oracle) (s : state)
        (cmd : Z) (payload : list Z) :
  (63 < List.length payload)%nat ->
  corsair_send_command usb cmd (Some payload)
                       (Z.of_nat (List.length payload)) s = Undefined
  /\ forall data data_len ret s',
       corsair_send_command usb cmd data data_len s = Val ret s' ->
       exists frame, sent_frames (log s') = (frame, 64) :: sent_frames (log s).
Proof.
  intros Hlen. split.
  - unfold corsair_send_command.
    rewrite (command_frame_overflow cmd payload Hlen). reflexivity.
  - intros data data_len ret s'.
    apply send_command_returns_after_transfer.
Qed.

Lemma send_command_oversized_payload_witness :
  corsair_send_command (answering example_frame) CMD_SET_LED
                       (Some (repeat 255 64)) 64 open_state = Undefined.
Proof.
  refine (proj1 (send_command_oversized_payload (answering example_frame)
                   open_state CMD_SET_LED (repeat 255 64) _)).
  cbn. lia.
Defined.

(** C10.  A command without payload (a null [data] pointer, or a
    [data_len] that is zero or less) is a defined call: nothing is copied and
    the frame put on the wire is the opcode followed by 63 zero bytes.
    [corsair_get_status] sends its GET_STATUS request this way on every one
    of its paths. *)
Theorem send_command_without_payload (usb : usb_oracle) (s : state) (cmd : Z)
        (data : option (list Z)) (data_len : Z) :
  data = None \/ data_len <= 0 ->
  (exists ret s',
      corsair_send_command usb cmd data data_len s = Val ret s'
      /\ sent_frames (log s') = (cmd :: repeat 0 63, 64) :: sent_frames (log s)
      /\ buffer (dev s') = cmd :: repeat 0 63)
  /\ (exists ret s',
         corsair_get_status usb s = Val ret s'
         /\ sent_frames (log s')
            = (CMD_GET_STATUS :: repeat 0 63, 64) :: sent_frames (log s)).
Proof.
  intros Hempty. split.
  - destruct (send_command_sends usb cmd data data_len _ s
                (command_frame_empty cmd data data_len Hempty))
      as (ret & s' & Hrun & Hsent & Hbuf & _).
    exists ret, s'. auto.
  - destruct (Z.lt_ge_cases (rv (status_write_reply usb s)) 0) as [Hw | Hw].
    + rewrite (get_status_write_fails usb s Hw).
      eexists; eexists. split; reflexivity.
    + destruct (Z.lt_ge_cases (rv (status_read_reply usb s)) 0) as [Hr | Hr].
      * rewrite (get_status_read_fails usb s Hw Hr).
        eexists; eexists. split; reflexivity.
      * rewrite (get_status_ok usb s Hw Hr).
        eexists; eexists. split; reflexivity.
Qed.

Lemma send_command_without_payload_witness :
  exists ret s',
    corsair_send_command (answering example_frame) CMD_GET_STATUS None 0
                         open_state = Val ret s'
    /\ sent_frames (log s') = [(CMD_GET_STATUS :: repeat 0 63, 64)]
    /\ buffer (dev s') = CMD_GET_STATUS :: repeat 0 63.
Proof.
  refine (proj1 (send_command_without_payload (answering example_frame)
                   open_state CMD_GET_STATUS None 0 _)).
  left. reflexivity.
Defined.

(** ** Speed commands *)

Lemma clamp_percent_above (percent : Z) :
  100 < percent -> clamp_percent percent = 100.
Proof.
  intros Hp. unfold clamp_percent. apply Z.ltb_lt in Hp. now rewrite Hp.
Qed.

Lemma clamp_percent_within (percent : Z) :
  percent <= 100 -> clamp_percent percent = percent.
Proof.
  intros Hp. unfold clamp_percent. apply Z.ltb_ge in Hp. now rewrite Hp.
Qed.

Lemma clamp_percent_idempotent (percent : Z) :
  clamp_percent (clamp_percent percent) = clamp_percent percent.
Proof.
  apply clamp_percent_within. unfold clamp_percent.
  destruct (100 <? percent) eqn:Hp; [lia | apply Z.ltb_ge in Hp; lia].
Qed.

(** C2.  The percent field of the frame that [corsair_set_pump_speed]
    and [corsair_set_fan_speed] send is the clamped percent: exactly 100 for
    every percent above 100, the percent itself for every percent in
    [0, 100]; clamping is idempotent and leaves 100 at 100.  The pump
    command's payload is [percent, 0] after opcode SET_PUMP, the fan
    command's payload is [fan_id, percent] after opcode SET_FAN, both in a
    64-byte zero-padded frame. *)
Theorem set_speed_clamps (usb : usb_oracle) (s : state)
        (fan_id percent : Z) :
  let field := clamp_percent percent in
  (100 < percent -> field = 100)
  /\ (0 <= percent <= 100 -> field = percent)
  /\ clamp_percent 100 = 100
  /\ clamp_percent field = field
  /\ (exists ret s',
         corsair_set_pump_speed usb percent s = Val ret s'
         /\ sent_frames (log s')
            = (CMD_SET_PUMP :: [field; 0] ++ repeat 0 61, 64)
                :: sent_frames (log s))
  /\ (exists ret s',
         corsair_set_fan_speed usb fan_id percent s = Val ret s'
         /\ sent_frames (log s')
            = (CMD_SET_FAN :: [fan_id; field] ++ repeat 0 61, 64)
                :: sent_frames (log s)).
Proof.
  intros field. subst field.
  split; [apply clamp_percent_above |].
  split; [intros [_ Hp]; apply clamp_percent_within, Hp |].
  split; [reflexivity |].
  split; [apply clamp_percent_idempotent |].
  split.
  - destruct (send_command_sends usb CMD_SET_PUMP
                (Some [clamp_percent percent; 0]) 2 _ s
                (command_frame_payload CMD_SET_PUMP
                   [clamp_percent percent; 0] ltac:(cbn; lia)))
      as (ret & s' & Hrun & Hsent & _).
    exists ret, s'. split; [exact Hrun | exact Hsent].
  - destruct (send_command_sends usb CMD_SET_FAN
                (Some [fan_id; clamp_percent percent]) 2 _ s
                (command_frame_payload CMD_SET_FAN
                   [fan_id; clamp_percent percent] ltac:(cbn; lia)))
      as (ret & s' & Hrun & Hsent & _).
    exists ret, s'. split; [exact Hrun | exact Hsent].
Qed.

(** The calls of [main]: pump to 70, fan 1 to 60; and a request above 100. *)
Example set_pump_70 :
  exists ret s',
    corsair_set_pump_speed (answering []) 70 open_state = Val ret s'
    /\ sent_frames (log s') = [(CMD_SET_PUMP :: [70; 0] ++ repeat 0 61, 64)].
Proof. do 2 eexists. split; reflexivity. Qed.

Example set_fan_1_60 :
  exists ret s',
    corsair_set_fan_speed (answering []) 1 60 open_state = Val ret s'
    /\ sent_frames (log s') = [(CMD_SET_FAN :: [1; 60] ++ repeat 0 61, 64)].
Proof. do 2 eexists. split; reflexivity. Qed.

Example set_pump_200 :
  exists ret s',
    corsair_set_pump_speed (answering []) 200 open_state = Val ret s'
    /\ sent_frames (log s') = [(CMD_SET_PUMP :: [100; 0] ++ repeat 0 61, 64)].
Proof. do 2 eexists. split; reflexivity. Qed.

Example set_fan_255 :
  exists ret s',
    corsair_set_fan_speed (answering []) 0 255 open_state = Val ret s'
    /\ sent_frames (log s') = [(CMD_SET_FAN :: [0; 100] ++ repeat 0 61, 64)].
Proof. do 2 eexists. split; reflexivity. Qed.

(** ** Closing the device *)

Lemma close_null (usb : usb_oracle) (s : state) :
  handle (dev s) = NULL -> corsair_close usb s = Val tt s.
Proof.
  intros Hnull. unfold corsair_close, Bind, get_handle.
  rewrite Hnull. reflexivity.
Qed.

Lemma close_open (usb : usb_oracle) (s : state) :
  handle (dev s) <> NULL ->
  exists r1 r2 r3 r4,
    corsair_close usb s =
    Val tt (mk_state (mk_device NULL (buffer (dev s)))
                     (Call Libusb_exit r4
                        :: Call (Libusb_close (handle (dev s))) r3
                        :: Call (Libusb_attach_kernel_driver (handle (dev s)) 0) r2
                        :: Call (Libusb_release_interface (handle (dev s)) 0) r1
                        :: log s)).
Proof.
  intros Hopen. unfold corsair_close, Bind, get_handle.
  apply Z.eqb_neq in Hopen. rewrite Hopen.
  unfold libusb, set_handle. cbn [dev log handle buffer].
  do 4 eexists. reflexivity.
Qed.

(** C6.  [corsair_close] never fails and invalidates the handle; a second
    call right after it, and a call on a handle that was never acquired
    (NULL), change nothing and make no libusb call at all, so the interface
    is released at most once. *)
Theorem close_is_idempotent (usb : usb_oracle) (s : state) :
  exists s1,
    corsair_close usb s = Val tt s1
    /\ handle (dev s1) = NULL
    /\ corsair_close usb s1 = Val tt s1
    /\ (corsair_close usb ;; corsair_close usb) s = corsair_close usb s
    /\ (count is_release (log s1) <= 1 + count is_release (log s))%nat
    /\ (handle (dev s) = NULL -> s1 = s).
Proof.
  destruct (Z.eq_dec (handle (dev s)) NULL) as [Hnull | Hopen].
  - exists s. rewrite (close_null usb s Hnull).
    split; [reflexivity |]. split; [exact Hnull |]. split; [reflexivity |].
    split; [| split; [lia | reflexivity]].
    unfold Bind. rewrite (close_null usb s Hnull).
    apply close_null, Hnull.
  - destruct (close_open usb s Hopen) as (r1 & r2 & r3 & r4 & Hrun).
    eexists. split; [exact Hrun |]. split; [reflexivity |].
    split; [apply close_null; reflexivity |].
    split; [| split].
    + unfold Bind. rewrite Hrun. apply close_null. reflexivity.
    + unfold count. cbn [log filter is_release List.length]. lia.
    + intros Hnull. contradiction.
Qed.

Example close_twice_after_session :
  exists s1,
    corsair_close (answering []) open_state = Val tt s1
    /\ (corsair_close (answering []) ;; corsair_close (answering []))
         open_state = Val tt s1
    /\ count is_release (log s1) = 1%nat.
Proof. eexists. repeat split. Qed.

Example close_never_acquired :
  corsair_close (answering []) fresh_state = Val tt fresh_state.
Proof. reflexivity. Qed.

(** ** Failures during a status query *)

(** C5.  In [corsair_get_status], a failed write makes the function
    return the write's error code with no read attempted and nothing printed;
    a read that fails after a successful write (a timeout, for one) makes it
    return the read's error code, again with no status line printed. *)
Theorem get_status_aborts_on_failure (usb : usb_oracle) (s : state) :
  (rv (status_write_reply usb s) < 0 ->
   exists s',
     corsair_get_status usb s = Val (rv (status_write_reply usb s)) s'
     /\ count is_read (log s') = count is_read (log s)
     /\ count is_printf (log s') = count is_printf (log s))
  /\ (0 <= rv (status_write_reply usb s) ->
      rv (status_read_reply usb s) < 0 ->
      exists s',
        corsair_get_status usb s = Val (rv (status_read_reply usb s)) s'
        /\ count is_read (log s') = S (count is_read (log s))
        /\ count is_printf (log s') = count is_printf (log s)).
Proof.
  split.
  - intros Hw. rewrite (get_status_write_fails usb s Hw).
    eexists. split; [reflexivity |]. split; reflexivity.
  - intros Hw Hr. rewrite (get_status_read_fails usb s Hw Hr).
    eexists. split; [reflexivity |]. split; reflexivity.
Qed.

Lemma get_status_aborts_on_failure_witness :
  (exists s',
      corsair_get_status (failing is_out_transfer LIBUSB_ERROR_IO) open_state
      = Val LIBUSB_ERROR_IO s'
      /\ count is_read (log s') = 0%nat
      /\ count is_printf (log s') = 0%nat)
  /\ (exists s',
         corsair_get_status (failing is_in_transfer LIBUSB_ERROR_TIMEOUT)
                            open_state
         = Val LIBUSB_ERROR_TIMEOUT s'
         /\ count is_read (log s') = 1%nat
         /\ count is_printf (log s') = 0%nat).
Proof.
  split.
  - apply (proj1 (get_status_aborts_on_failure
                    (failing is_out_transfer LIBUSB_ERROR_IO) open_state)).
    vm_compute. reflexivity.
  - apply (proj2 (get_status_aborts_on_failure
                    (failing is_in_transfer LIBUSB_ERROR_TIMEOUT) open_state)).
    + vm_compute. discriminate.
    + vm_compute. reflexivity.
Defined.

(** ** Failures during initialisation *)

Ltac split_on_condition :=
  match goal with
  | |- context [if ?c then _ else _] => destruct c eqn:?
  end.

Ltac recall_conditions :=
  repeat match goal with
         | H : ?c = _ |- context [if ?c then _ else _] => rewrite H
         end.

(** C8.  [corsair_init] always returns, with 0 or a negative value.
    When it returns a negative value, everything it acquired on the way has
    been given back by the time it returns: every interface claimed was
    released, every handle opened was closed and the libusb context was
    exited, also when the INIT transfer fails after the claim.  (On success
    the context, the handle and the claim on interface 0 stay held.) *)
Theorem init_failure_releases (usb : usb_oracle) (s : state) :
  held (log s) = no_resources ->
  exists ret s',
    corsair_init usb s = Val ret s'
    /\ (ret < 0 -> held (log s') = no_resources)
    /\ (0 <= ret ->
        ret = 0
        /\ handle (dev s') <> NULL
        /\ held (log s')
           = mk_resources true [handle (dev s')] [(handle (dev s'), 0)]).
Proof.
  intros Hclean.
  unfold corsair_init, detach_kernel_driver_if_active, corsair_close,
    interrupt_transfer_out, Bind, libusb, fprintf_stderr, usleep, emit,
    set_handle, get_handle, set_buffer, get_buffer, Return.
  cbn [dev log handle buffer].
  repeat (split_on_condition; cbn [dev log handle buffer]).
  all: eexists; eexists; (split; [reflexivity |]).
  all: cbn [log held acquire_release dev handle]; rewrite ?Hclean.
  all: recall_conditions.
  all: cbn [context_live open_handles claimed no_resources filter].
  all: unfold same_claim; cbn [fst snd]; rewrite ?Z.eqb_refl; cbn [andb negb].
  all: repeat match goal with
              | H : (_ <? _) = true |- _ => apply Z.ltb_lt in H
              | H : (_ <? _) = false |- _ => apply Z.ltb_ge in H
              | H : (_ =? _) = false |- _ => apply Z.eqb_neq in H
              end.
  all: split; [intros Hneg; first [reflexivity | exfalso; lia]
              | intros Hpos; first [exfalso; lia | idtac]].
  all: repeat split; assumption.
Qed.

Lemma init_failure_releases_witness :
  exists s',
    corsair_init (failing is_out_transfer LIBUSB_ERROR_IO) fresh_state
    = Val LIBUSB_ERROR_IO s'
    /\ held (log s') = no_resources.
Proof.
  destruct (init_failure_releases (failing is_out_transfer LIBUSB_ERROR_IO)
              fresh_state eq_refl) as (ret & s' & Hrun & Hfail & _).
  exists s'. cbn in Hrun. injection Hrun as <- <-.
  split; [reflexivity |]. apply Hfail. reflexivity.
Defined.

(** The whole run when the INIT transfer fails after the claim, oldest call
    last: the interface is released before the handle is closed and the
    error returned. *)
Example init_transfer_failure_run :
  corsair_init (failing is_out_transfer LIBUSB_ERROR_IO) fresh_state =
  Val LIBUSB_ERROR_IO
      (mk_state
         (mk_device NULL (CMD_INIT :: repeat 0 63))
         [Call Libusb_exit (mk_reply 0 []);
          Call (Libusb_close 1) (mk_reply 0 []);
          Call (Libusb_attach_kernel_driver 1 0) (mk_reply 0 []);
          Call (Libusb_release_interface 1 0) (mk_reply 0 []);
          Fprintf_stderr "Failed to initialize device: %s\n"
                         [Arg_error_name LIBUSB_ERROR_IO];
          Call (Libusb_interrupt_transfer 1 EP_OUT (CMD_INIT :: repeat 0 63)
                                          64 USB_TIMEOUT)
               (mk_reply LIBUSB_ERROR_IO []);
          Call (Libusb_claim_interface 1 0) (mk_reply 0 []);
          Call (Libusb_kernel_driver_active 1 0) (mk_reply 0 []);
          Call (Libusb_open_device_with_vid_pid CORSAIR_VID H80I_V2_PID)
               (mk_reply 1 []);
          Call Libusb_init (mk_reply 0 [])]).
Proof. reflexivity. Qed.

(** The run when the claim itself fails: the handle is closed, the context
    exited, and [dev->handle] keeps the value of the closed handle. *)
Example init_claim_failure_run :
  corsair_init (failing is_claim LIBUSB_ERROR_IO) fresh_state =
  Val LIBUSB_ERROR_IO
      (mk_state
         (mk_device 1 zero_buffer)
         [Call Libusb_exit (mk_reply 0 []);
          Call (Libusb_close 1) (mk_reply 0 []);
          Fprintf_stderr "Failed to claim interface: %s\n"
                         [Arg_error_name LIBUSB_ERROR_IO];
          Call (Libusb_claim_interface 1 0) (mk_reply LIBUSB_ERROR_IO []);
          Call (Libusb_kernel_driver_active 1 0) (mk_reply 0 []);
          Call (Libusb_open_device_with_vid_pid CORSAIR_VID H80I_V2_PID)
               (mk_reply 1 []);
          Call Libusb_init (mk_reply 0 [])]).
Proof. reflexivity. Qed.

(** * Further properties of the program *)

(** ** Frame construction at its boundaries *)

Lemma memcpy_length (buf : list Z) (off : nat) (src : list Z) (n : Z)
      (out : list Z) :
  memcpy buf off src n = Some out -> List.length out = List.length buf.
Proof.
  unfold memcpy. destruct (_ && _)%bool eqn:Hfit; [| discriminate].
  intros [= <-]. apply andb_true_iff in Hfit as [Hsrc Hbuf].
  apply Nat.leb_le in Hsrc, Hbuf.
  rewrite !length_app, !length_firstn, length_skipn. lia.
Qed.

Lemma command_frame_length (cmd : Z) (data : option (list Z)) (data_len : Z)
      (frame : list Z) :
  command_frame cmd data data_len = Some frame ->
  List.length frame = BUFFER_SIZE.
Proof.
  unfold command_frame.
  change (store zero_buffer 0 cmd) with (cmd :: repeat 0 63).
  destruct data as [src |].
  - destruct (0 <? data_len).
    + intros Hcopy. apply memcpy_length in Hcopy. exact Hcopy.
    + intros [= <-]. reflexivity.
  - intros [= <-]. reflexivity.
Qed.

(** The copy at line 115 takes the first [data_len] bytes of [data], also
    when the array behind [data] is longer. *)
Theorem command_frame_prefix (cmd : Z) (data : list Z) (data_len : Z) :
  0 < data_len <= 63 ->
  data_len <= Z.of_nat (List.length data) ->
  command_frame cmd (Some data) data_len =
  Some (cmd :: firstn (Z.to_nat data_len) data
            ++ repeat 0 (63 - Z.to_nat data_len)).
Proof.
  intros Hlen Hsrc. unfold command_frame.
  change (store zero_buffer 0 cmd) with (cmd :: repeat 0 63).
  replace (0 <? data_len) with true by (symmetry; apply Z.ltb_lt; lia).
  unfold memcpy. cbn [List.length]. rewrite repeat_length.
  replace (Nat.leb (Z.to_nat data_len) (List.length data)) with true
    by (symmetry; apply Nat.leb_le; lia).
  replace (Nat.leb (1 + Z.to_nat data_len) 64) with true
    by (symmetry; apply Nat.leb_le; lia).
  cbn [andb firstn skipn Nat.add app]. rewrite skipn_repeat. reflexivity.
Qed.

Lemma command_frame_prefix_witness :
  command_frame CMD_SET_PUMP (Some [70; 0; 9; 9]) 2 =
  Some (CMD_SET_PUMP :: [70; 0] ++ repeat 0 61).
Proof.
  apply (command_frame_prefix CMD_SET_PUMP [70; 0; 9; 9] 2); cbn; lia.
Defined.


(** ** Responses shorter than a frame *)

Lemma deliver_zero_buffer (received : list Z) :
  deliver received zero_buffer =
  firstn 64 received
  ++ repeat 0 (64 - List.length (firstn 64 received)).
Proof.
  unfold deliver, zero_buffer, BUFFER_SIZE.
  rewrite repeat_length, skipn_repeat. reflexivity.
Qed.

Lemma deliver_length (received buf : list Z) :
  List.length (deliver received buf) = List.length buf.
Proof.
  unfold deliver. rewrite length_app, length_skipn, length_firstn. lia.
Qed.

Lemma nth_zero_padded (l : list Z) (k i : nat) :
  nth i (l ++ repeat 0 k) 0 = nth i l 0.
Proof.
  destruct (Nat.lt_ge_cases i (List.length l)) as [Hin | Hout].
  - apply app_nth1, Hin.
  - rewrite app_nth2, nth_repeat by lia.
    symmetry. apply nth_overflow. lia.
Qed.

Lemma decode_status_zero_padded (l : list Z) (k : nat) :
  decode_status (l ++ repeat 0 k) = decode_status l.
Proof.
  unfold decode_status, liquid_temperature, pump_speed, fan1_speed,
    fan2_speed.
  rewrite !nth_zero_padded. reflexivity.
Qed.

(** [corsair_receive_response] always returns.  Afterwards the buffer holds
    the bytes that arrived (at most 64) followed by zeros up to 64 bytes,
    whatever it held before and whether or not the transfer failed; the
    result is the count of bytes that arrived (0 to 64) when libusb
    reports success, and libusb's negative code otherwise. *)
Theorem receive_response_fills_buffer (usb : usb_oracle) (s : state) :
  let r := usb (log s) (read_call s) in
  let got := firstn 64 (rx r) in
  exists ret s',
    corsair_receive_response usb s = Val ret s'
    /\ buffer (dev s') = got ++ repeat 0 (64 - List.length got)
    /\ List.length (buffer (dev s')) = 64%nat
    /\ handle (dev s') = handle (dev s)
    /\ (0 <= rv r -> ret = Z.of_nat (List.length got) /\ 0 <= ret <= 64)
    /\ (rv r < 0 -> ret = rv r).
Proof.
  intros r got. rewrite receive_response_run. cbv zeta. fold r.
  destruct (rv r <? 0) eqn:Hrv; eexists; eexists;
    (split; [reflexivity |]); cbn [dev buffer handle];
    (split; [apply deliver_zero_buffer |]);
    (split; [rewrite deliver_length; reflexivity |]);
    (split; [reflexivity |]).
  - apply Z.ltb_lt in Hrv. split; [lia | reflexivity].
  - apply Z.ltb_ge in Hrv. split; [| lia]. intros _.
    split; [reflexivity |].
    change (List.length zero_buffer) with 64%nat.
    rewrite length_firstn. lia.
Qed.

(** A successful read that brings fewer than 64 bytes is not an error for
    [corsair_get_status]: it returns 0 and prints the readings decoded from
    the bytes that arrived, every missing byte counting as zero (never as a
    byte left over from the request).  With at most one byte received all
    four readings are zero. *)
Theorem get_status_short_read (usb : usb_oracle) (s : state) :
  0 <= rv (status_write_reply usb s) ->
  0 <= rv (status_read_reply usb s) ->
  let got := firstn 64 (rx (status_read_reply usb s)) in
  exists s',
    corsair_get_status usb s = Val 0 s'
    /\ firstn 4 (log s')
       = [Printf "Fan 2 Speed: %d RPM\n" [Arg_int (fan2_rpm (decode_status got))];
          Printf "Fan 1 Speed: %d RPM\n" [Arg_int (fan1_rpm (decode_status got))];
          Printf "Pump Speed: %d RPM\n" [Arg_int (pump_rpm (decode_status got))];
          Printf "Liquid Temperature: %.1f°C\n"
                 [Arg_double (temperature (decode_status got))]]
    /\ ((List.length got <= 1)%nat ->
        decode_status got = mk_status 0%float 0 0 0).
Proof.
  intros Hw Hr got. rewrite (get_status_ok usb s Hw Hr). cbv zeta.
  rewrite deliver_zero_buffer. fold got.
  eexists. split; [reflexivity |]. split.
  - cbn [log firstn].
    unfold decode_status. cbn [temperature pump_rpm fan1_rpm fan2_rpm].
    unfold liquid_temperature, pump_speed, fan1_speed, fan2_speed.
    rewrite !nth_zero_padded. reflexivity.
  - intros Hshort.
    unfold decode_status, liquid_temperature, pump_speed, fan1_speed,
      fan2_speed.
    rewrite !(nth_overflow got) by lia. vm_compute. reflexivity.
Qed.

Lemma get_status_short_read_witness :
  exists s',
    corsair_get_status (short_answering 3 example_frame) open_state = Val 0 s'
    /\ firstn 4 (log s')
       = [Printf "Fan 2 Speed: %d RPM\n" [Arg_int 0];
          Printf "Fan 1 Speed: %d RPM\n" [Arg_int 0];
          Printf "Pump Speed: %d RPM\n" [Arg_int 0];
          Printf "Liquid Temperature: %.1f°C\n" [Arg_double 25.5%float]].
Proof.
  destruct (get_status_short_read (short_answering 3 example_frame) open_state)
    as (s' & Hrun & Hprinted & _).
  - vm_compute. discriminate.
  - vm_compute. discriminate.
  - exists s'. split; [exact Hrun | exact Hprinted].
Defined.

(** ** Commands inside a session *)

Lemma on_wire_app (f1 f2 : list (list Z)) :
  on_wire (f1 ++ f2) = on_wire f2 ++ on_wire f1.
Proof. unfold on_wire. rewrite rev_app_distr. apply map_app. Qed.

Lemma steady_return {A : Type} (a : A) : steady [] (Return a).
Proof.
  intros s Hs. exists a, s. repeat split; try apply Hs.
Qed.

Lemma steady_bind {A B : Type} (f1 f2 : list (list Z)) (m : M A)
      (k : A -> M B) :
  steady f1 m -> (forall a, steady f2 (k a)) -> steady (f1 ++ f2) (Bind m k).
Proof.
  intros Hm Hk s Hs.
  destruct (Hm s Hs) as (a & s1 & Hrun1 & Hs1 & Hh1 & Hw1).
  destruct (Hk a s1 Hs1) as (b & s2 & Hrun2 & Hs2 & Hh2 & Hw2).
  exists b, s2. unfold Bind. rewrite Hrun1.
  split; [exact Hrun2 |]. split; [exact Hs2 |].
  split; [congruence |].
  rewrite Hw2, Hw1, on_wire_app. apply app_assoc.
Qed.

Lemma steady_then {A B : Type} (f : list (list Z)) (m : M A) (k : A -> M B) :
  steady [] m -> (forall a, steady f (k a)) -> steady f (Bind m k).
Proof. intros Hm Hk. exact (steady_bind [] f m k Hm Hk). Qed.

Lemma steady_emit (e : event) : quiet e -> steady [] (emit e).
Proof.
  intros Hq s (Hh & Hheld & Htr & Hlen).
  exists tt. eexists. split; [reflexivity |].
  destruct e; try contradiction; repeat split; assumption.
Qed.

Lemma steady_get_buffer : steady [] get_buffer.
Proof.
  intros s Hs. exists (buffer (dev s)), s. repeat split; try apply Hs.
Qed.

Ltac in_session :=
  match goal with
  | Hh : handle (dev ?s) <> NULL,
    Hheld : held (log ?s) = _,
    Htr : transfers_in_session (log ?s) = true |- session _ =>
    unfold session, write_call, read_call;
    cbn [dev log handle buffer held acquire_release transfers_in_session
         transfer_handle];
    rewrite ?Hheld;
    cbn [open_handles claimed existsb]; unfold same_claim; cbn [fst snd];
    rewrite ?Z.eqb_refl; cbn [andb orb];
    repeat split; try assumption
  end.

Section Session_commands.

Variable usb : usb_oracle.

Lemma steady_send_command (cmd : Z) (data : option (list Z)) (data_len : Z)
      (frame : list Z) :
  command_frame cmd data data_len = Some frame ->
  steady [frame] (corsair_send_command usb cmd data data_len).
Proof.
  intros Hframe s (Hh & Hheld & Htr & Hlen).
  rewrite (send_command_run usb _ _ _ _ s Hframe). cbv zeta.
  pose proof (command_frame_length _ _ _ _ Hframe) as Hsize.
  destruct (rv _ <? 0); eexists; eexists; (split; [reflexivity |]);
    (split; [in_session | split; reflexivity]).
Qed.

Lemma steady_receive_response : steady [] (corsair_receive_response usb).
Proof.
  intros s (Hh & Hheld & Htr & Hlen).
  rewrite receive_response_run. cbv zeta.
  destruct (rv _ <? 0); eexists; eexists; (split; [reflexivity |]);
    (split; [in_session; apply deliver_length | split; reflexivity]).
Qed.

Lemma steady_print_status : steady [] print_status.
Proof.
  unfold print_status, printf.
  apply steady_then; [apply steady_get_buffer | intros buf].
  repeat (apply steady_then; [apply steady_emit; exact I | intros _]).
  apply steady_emit. exact I.
Qed.

Lemma steady_get_status : steady [status_request] (corsair_get_status usb).
Proof.
  unfold corsair_get_status.
  apply (steady_bind [status_request] []);
    [apply steady_send_command; reflexivity | intros ret].
  destruct (ret <? 0); [apply steady_return |].
  apply steady_then; [apply steady_emit; exact I | intros _].
  apply steady_then; [apply steady_receive_response | intros ret'].
  destruct (ret' <? 0); [apply steady_return |].
  apply steady_then; [apply steady_print_status | intros _].
  apply steady_return.
Qed.

Lemma steady_set_pump_speed (speed_percent : Z) :
  steady [CMD_SET_PUMP :: [clamp_percent speed_percent; 0] ++ repeat 0 61]
         (corsair_set_pump_speed usb speed_percent).
Proof.
  apply steady_send_command.
  exact (command_frame_payload CMD_SET_PUMP [clamp_percent speed_percent; 0]
           ltac:(cbn; lia)).
Qed.

Lemma steady_set_fan_speed (fan_id speed_percent : Z) :
  steady [CMD_SET_FAN :: [fan_id; clamp_percent speed_percent] ++ repeat 0 61]
         (corsair_set_fan_speed usb fan_id speed_percent).
Proof.
  apply steady_send_command.
  exact (command_frame_payload CMD_SET_FAN [fan_id; clamp_percent speed_percent]
           ltac:(cbn; lia)).
Qed.

Lemma steady_set_led (mode r g b : Z) :
  steady [CMD_SET_LED :: [mode; r; g; b] ++ repeat 0 59]
         (corsair_set_led usb mode r g b).
Proof.
  apply steady_send_command.
  exact (command_frame_payload CMD_SET_LED [mode; r; g; b] ltac:(cbn; lia)).
Qed.

End Session_commands.

(** ** From [corsair_init] to [corsair_close] *)

Ltac evaluate_trace Hclean Htr :=
  unfold session;
  cbn [log dev handle buffer held acquire_release transfers_in_session
       transfer_handle sent_frames sent_frame];
  rewrite ?Hclean; recall_conditions;
  cbn [context_live open_handles claimed no_resources filter existsb];
  unfold same_claim; cbn [fst snd];
  rewrite ?Z.eqb_refl, ?Htr; cbn [andb orb negb];
  repeat match goal with
         | H : (_ <? _) = true |- _ => apply Z.ltb_lt in H
         | H : (_ <? _) = false |- _ => apply Z.ltb_ge in H
         | H : (_ =? _) = false |- _ => apply Z.eqb_neq in H
         end.

Lemma init_run (usb : usb_oracle) (s : state) :
  held (log s) = no_resources ->
  transfers_in_session (log s) = true ->
  exists ret s',
    corsair_init usb s = Val ret s'
    /\ transfers_in_session (log s') = true
    /\ (0 <= ret ->
        session s'
        /\ sent_frames (log s')
           = (CMD_INIT :: repeat 0 63, 64) :: sent_frames (log s))
    /\ (ret < 0 ->
        held (log s') = no_resources
        /\ (sent_frames (log s') = sent_frames (log s)
            \/ sent_frames (log s')
               = (CMD_INIT :: repeat 0 63, 64) :: sent_frames (log s))).
Proof.
  intros Hclean Htr.
  unfold corsair_init, detach_kernel_driver_if_active, corsair_close,
    interrupt_transfer_out, Bind, libusb, fprintf_stderr, usleep, emit,
    set_handle, get_handle, set_buffer, get_buffer, Return.
  cbn [dev log handle buffer].
  repeat (split_on_condition; cbn [dev log handle buffer]).
  all: eexists; eexists; (split; [reflexivity |]).
  all: evaluate_trace Hclean Htr.
  all: split; [reflexivity |].
  all: split; [intros Hpos; first [exfalso; lia | idtac]
              | intros Hneg; first [exfalso; lia | idtac]].
  all: split; first [assumption | reflexivity | idtac].
  all: first [left; reflexivity | right; reflexivity
             | repeat split; first [assumption | reflexivity]].
Qed.

(** Started with nothing held, [corsair_init] makes its one transfer (the
    INIT frame) only after the handle is open and interface 0 claimed.  When
    it returns 0 the program is in a session and exactly the INIT frame was
    written; when it returns a negative value nothing is held any more and
    at most the INIT frame was written. *)
Theorem init_opens_session (usb : usb_oracle) (s : state) :
  held (log s) = no_resources ->
  transfers_in_session (log s) = true ->
  exists ret s',
    corsair_init usb s = Val ret s'
    /\ transfers_in_session (log s') = true
    /\ (0 <= ret ->
        session s'
        /\ sent_frames (log s')
           = (CMD_INIT :: repeat 0 63, 64) :: sent_frames (log s))
    /\ (ret < 0 ->
        held (log s') = no_resources
        /\ (sent_frames (log s') = sent_frames (log s)
            \/ sent_frames (log s')
               = (CMD_INIT :: repeat 0 63, 64) :: sent_frames (log s))).
Proof.
  intros Hclean Htr.
  destruct (init_run usb s Hclean Htr) as (ret & s' & Hrun & Hafter).
  exists ret, s'. split; [exact Hrun | exact Hafter].
Qed.

Lemma init_opens_session_witness :
  exists s',
    corsair_init (answering []) fresh_state = Val 0 s'
    /\ session s'
    /\ sent_frames (log s') = [(CMD_INIT :: repeat 0 63, 64)].
Proof.
  destruct (init_opens_session (answering []) fresh_state eq_refl eq_refl)
    as (ret & s' & Hrun & _ & Hok & _).
  cbn in Hrun. injection Hrun as <- <-.
  eexists. split; [reflexivity |]. apply Hok. lia.
Defined.

Lemma close_run (usb : usb_oracle) (s : state) :
  session s ->
  exists r1 r2 r3 r4 s',
    corsair_close usb s = Val tt s'
    /\ log s' = Call Libusb_exit r4
                :: Call (Libusb_close (handle (dev s))) r3
                :: Call (Libusb_attach_kernel_driver (handle (dev s)) 0) r2
                :: Call (Libusb_release_interface (handle (dev s)) 0) r1
                :: log s
    /\ handle (dev s') = NULL
    /\ held (log s') = no_resources
    /\ transfers_in_session (log s') = true
    /\ sent_frames (log s') = sent_frames (log s).
Proof.
  intros (Hh & Hheld & Htr & Hlen).
  destruct (close_open usb s Hh) as (r1 & r2 & r3 & r4 & Hrun).
  exists r1, r2, r3, r4. eexists. split; [exact Hrun |].
  cbn [log dev handle held acquire_release transfers_in_session
       transfer_handle sent_frames sent_frame].
  rewrite Hheld, Htr.
  cbn [context_live open_handles claimed filter]. unfold same_claim.
  cbn [fst snd]. rewrite !Z.eqb_refl. repeat split.
Qed.

(** [corsair_close] in a session gives back everything in the order
    release, re-attach, close, exit, writes nothing to the device, and
    leaves the handle NULL. *)
Theorem close_ends_session (usb : usb_oracle) (s : state) :
  session s ->
  exists r1 r2 r3 r4 s',
    corsair_close usb s = Val tt s'
    /\ log s' = Call Libusb_exit r4
                :: Call (Libusb_close (handle (dev s))) r3
                :: Call (Libusb_attach_kernel_driver (handle (dev s)) 0) r2
                :: Call (Libusb_release_interface (handle (dev s)) 0) r1
                :: log s
    /\ handle (dev s') = NULL
    /\ held (log s') = no_resources
    /\ transfers_in_session (log s') = true
    /\ sent_frames (log s') = sent_frames (log s).
Proof.
  intros Hsession.
  destruct (close_run usb s Hsession)
    as (r1 & r2 & r3 & r4 & s' & Hrun & Hafter).
  exists r1, r2, r3, r4, s'. split; [exact Hrun | exact Hafter].
Qed.

Lemma close_ends_session_witness :
  exists s1 s2,
    corsair_init (answering []) fresh_state = Val 0 s1
    /\ corsair_close (answering []) s1 = Val tt s2
    /\ held (log s1) = mk_resources true [1] [(1, 0)]
    /\ held (log s2) = no_resources.
Proof.
  destruct (init_run (answering []) fresh_state eq_refl eq_refl)
    as (ret & s1 & Hrun & _ & Hok & _).
  cbn in Hrun. injection Hrun as <- <-.
  destruct Hok as [Hsession _]; [lia |].
  destruct (close_ends_session (answering []) _ Hsession)
    as (r1 & r2 & r3 & r4 & s2 & Hclose & _ & _ & Hheld & _).
  eexists; exists s2. split; [reflexivity |]. split; [exact Hclose |].
  split; [reflexivity | exact Hheld].
Defined.

(** ** The commands of a session and the whole program *)

(** In a session, each of [corsair_get_status], [corsair_set_pump_speed],
    [corsair_set_fan_speed] and [corsair_set_led] returns (whether or not
    its transfers fail), writes exactly one frame to the device, keeps the
    handle, and acquires or releases nothing: the program is still in the
    session afterwards. *)
Theorem commands_stay_in_session (usb : usb_oracle)
        (fan_id percent mode r g b : Z) :
  steady [CMD_GET_STATUS :: repeat 0 63] (corsair_get_status usb)
  /\ steady [CMD_SET_PUMP :: [clamp_percent percent; 0] ++ repeat 0 61]
            (corsair_set_pump_speed usb percent)
  /\ steady [CMD_SET_FAN :: [fan_id; clamp_percent percent] ++ repeat 0 61]
            (corsair_set_fan_speed usb fan_id percent)
  /\ steady [CMD_SET_LED :: [mode; r; g; b] ++ repeat 0 59]
            (corsair_set_led usb mode r g b).
Proof.
  split; [apply steady_get_status |].
  split; [apply steady_set_pump_speed |].
  split; [apply steady_set_fan_speed | apply steady_set_led].
Qed.

Lemma steady_main_commands (usb : usb_oracle) :
  steady (tl main_frames) (main_commands usb).
Proof.
  unfold main_commands, sleep, usleep, printf.
  apply steady_then; [apply steady_emit; exact I | intros _].
  eapply (steady_bind [_]); [apply steady_get_status | intros _].
  apply steady_then; [apply steady_emit; exact I | intros _].
  eapply (steady_bind [_]);
    [exact (steady_set_pump_speed usb 70) | intros _].
  apply steady_then; [apply steady_emit; exact I | intros _].
  eapply (steady_bind [_]);
    [exact (steady_set_fan_speed usb 0 60) | intros _].
  eapply (steady_bind [_]);
    [exact (steady_set_fan_speed usb 1 60) | intros _].
  apply steady_then; [apply steady_emit; exact I | intros _].
  eapply (steady_bind [_]);
    [exact (steady_set_led usb LED_MODE_PULSE 0 0 255) | intros _].
  apply steady_then; [apply steady_emit; exact I | intros _].
  apply steady_then; [apply steady_emit; exact I | intros _].
  eapply (steady_bind [_] []); [apply steady_get_status | intros _].
  apply steady_return.
Qed.

Lemma bind_run {A B : Type} (m : M A) (k : A -> M B) (s s1 : state) (a : A) :
  m s = Val a s1 -> Bind m k s = k a s1.
Proof. intros Hrun. unfold Bind. rewrite Hrun. reflexivity. Qed.

(** [main], started with nothing held, always returns, with exit code 0 or
    1, and with nothing held at the end; no transfer is ever made outside
    an open, claimed session.  Exit code 0 means the seven frames of
    [main_frames] were written in order, also when transfers failed on the
    way; exit code 1 means initialisation failed and at most the INIT frame
    was written. *)
Theorem main_run (usb : usb_oracle) (s : state) :
  held (log s) = no_resources ->
  transfers_in_session (log s) = true ->
  exists code s',
    main usb s = Val code s'
    /\ (code = 0 \/ code = 1)
    /\ held (log s') = no_resources
    /\ transfers_in_session (log s') = true
    /\ (code = 0 ->
        handle (dev s') = NULL
        /\ sent_frames (log s') = on_wire main_frames ++ sent_frames (log s))
    /\ (code = 1 ->
        sent_frames (log s') = sent_frames (log s)
        \/ sent_frames (log s')
           = (CMD_INIT :: repeat 0 63, 64) :: sent_frames (log s)).
Proof.
  intros Hclean Htr.
  set (s0 := mk_state (mk_device NULL zero_buffer)
                      (Printf "-------------------------------\n" []
                         :: Printf "Corsair H80i V2 Control Utility\n" []
                         :: log s)).
  change (main usb s) with
    ((ret <- corsair_init usb ;;
      if ret <? 0 then Return 1
      else main_commands usb ;; corsair_close usb ;;
           printf "\nDevice closed\n" [] ;; Return 0) s0).
  destruct (init_run usb s0) as (ret & s1 & Hinit & Htr1 & Hok & Hfail);
    [exact Hclean | exact Htr |].
  rewrite (bind_run _ _ _ _ _ Hinit).
  destruct (ret <? 0) eqn:Hret.
  - apply Z.ltb_lt in Hret. destruct (Hfail Hret) as [Hheld Hsent].
    exists 1, s1. split; [reflexivity |]. split; [right; reflexivity |].
    split; [exact Hheld |]. split; [exact Htr1 |].
    split; [discriminate |]. intros _. exact Hsent.
  - apply Z.ltb_ge in Hret. destruct (Hok Hret) as [Hs1 Hsent1].
    destruct (steady_main_commands usb s1 Hs1)
      as ([] & s2 & Hcmds & Hs2 & _ & Hsent2).
    rewrite (bind_run _ _ _ _ _ Hcmds).
    destruct (close_run usb s2 Hs2)
      as (r1 & r2 & r3 & r4 & s3 & Hclose & _ & Hnull & Hheld & Htr3 & Hsent3).
    rewrite (bind_run _ _ _ _ _ Hclose).
    eexists; eexists. split; [reflexivity |].
    cbn [log dev held acquire_release transfers_in_session transfer_handle
         sent_frames sent_frame andb].
    split; [left; reflexivity |]. split; [exact Hheld |].
    split; [exact Htr3 |]. split; [| discriminate].
    intros _. split; [exact Hnull |].
    rewrite Hsent3, Hsent2, Hsent1. reflexivity.
Qed.

Lemma main_run_witness :
  (exists s',
      main (answering example_frame) fresh_state = Val 0 s'
      /\ held (log s') = no_resources
      /\ sent_frames (log s') = on_wire main_frames)
  /\ (exists s',
         main (failing is_claim LIBUSB_ERROR_IO) fresh_state = Val 1 s'
         /\ held (log s') = no_resources).
Proof.
  split.
  - destruct (main_run (answering example_frame) fresh_state eq_refl eq_refl)
      as (code & s' & Hrun & _ & Hheld & _ & Hok & _).
    pose proof Hrun as Hval. vm_compute in Hval.
    injection Hval as Hcode _. subst code.
    exists s'. split; [exact Hrun |]. split; [exact Hheld |].
    exact (proj2 (Hok eq_refl)).
  - destruct (main_run (failing is_claim LIBUSB_ERROR_IO) fresh_state
                eq_refl eq_refl)
      as (code & s' & Hrun & _ & Hheld & _).
    pose proof Hrun as Hval. vm_compute in Hval.
    injection Hval as Hcode _. subst code.
    exists s'. split; [exact Hrun | exact Hheld].
Defined.

(** ** Results of the setters and the size of the buffer *)

(** [corsair_set_led] sends SET_LED with the payload [mode, r, g, b] as
    given (nothing is clamped or checked) in a zero-padded 64-byte frame.
    Like the two speed setters it is defined for all arguments and returns
    0 when libusb accepts the transfer of its frame, and libusb's negative
    code unchanged when the transfer fails. *)
Theorem setters_report_transfer (usb : usb_oracle) (s : state)
        (fan_id percent mode r g b : Z) :
  let led := CMD_SET_LED :: [mode; r; g; b] ++ repeat 0 59 in
  let pump := CMD_SET_PUMP :: [clamp_percent percent; 0] ++ repeat 0 61 in
  let fan := CMD_SET_FAN :: [fan_id; clamp_percent percent] ++ repeat 0 61 in
  let result := fun frame =>
    let code := rv (usb (log s) (write_call s frame)) in
    if code <? 0 then code else 0 in
  (exists s',
      corsair_set_led usb mode r g b s = Val (result led) s'
      /\ sent_frames (log s') = (led, 64) :: sent_frames (log s))
  /\ (exists s', corsair_set_pump_speed usb percent s = Val (result pump) s')
  /\ (exists s',
         corsair_set_fan_speed usb fan_id percent s = Val (result fan) s').
Proof.
  intros led pump fan result. subst result. cbv beta zeta.
  split; [| split].
  - change (corsair_set_led usb mode r g b s)
      with (corsair_send_command usb CMD_SET_LED (Some [mode; r; g; b])
              (Z.of_nat (List.length [mode; r; g; b])) s).
    rewrite (send_command_run usb _ _ _ led s
               (command_frame_payload CMD_SET_LED [mode; r; g; b]
                  ltac:(cbn; lia))).
    cbv zeta. destruct (rv _ <? 0); eexists; split; reflexivity.
  - change (corsair_set_pump_speed usb percent s)
      with (corsair_send_command usb CMD_SET_PUMP
              (Some [clamp_percent percent; 0])
              (Z.of_nat (List.length [clamp_percent percent; 0])) s).
    rewrite (send_command_run usb _ _ _ pump s
               (command_frame_payload CMD_SET_PUMP [clamp_percent percent; 0]
                  ltac:(cbn; lia))).
    cbv zeta. destruct (rv _ <? 0); eexists; reflexivity.
  - change (corsair_set_fan_speed usb fan_id percent s)
      with (corsair_send_command usb CMD_SET_FAN
              (Some [fan_id; clamp_percent percent])
              (Z.of_nat (List.length [fan_id; clamp_percent percent])) s).
    rewrite (send_command_run usb _ _ _ fan s
               (command_frame_payload CMD_SET_FAN
                  [fan_id; clamp_percent percent] ltac:(cbn; lia))).
    cbv zeta. destruct (rv _ <? 0); eexists; reflexivity.
Qed.

Example set_led_blue_pulse_rejected :
  exists s',
    corsair_set_led (failing is_out_transfer LIBUSB_ERROR_TIMEOUT)
                    LED_MODE_PULSE 0 0 255 open_state
    = Val LIBUSB_ERROR_TIMEOUT s'
    /\ sent_frames (log s')
       = [(CMD_SET_LED :: [LED_MODE_PULSE; 0; 0; 255] ++ repeat 0 59, 64)].
Proof. eexists. split; reflexivity. Qed.





(** ** The handle after a failed initialisation *)

(** When no matching device can be opened, [corsair_init] returns -1 after
    exiting libusb, the handle in the device structure is NULL, and a
    following [corsair_close] does nothing. *)
Theorem init_device_not_found (usb : usb_oracle) (s : state) :
  0 <= rv (init_reply usb s) ->
  rv (open_reply usb s) = NULL ->
  exists r s',
    corsair_init usb s = Val (-1) s'
    /\ handle (dev s') = NULL
    /\ log s'
       = Call Libusb_exit r
           :: Fprintf_stderr "Could not find or open Corsair H80i V2 device\n" []
           :: Call (Libusb_open_device_with_vid_pid CORSAIR_VID H80I_V2_PID)
                   (open_reply usb s)
           :: Call Libusb_init (init_reply usb s)
           :: log s
    /\ corsair_close usb s' = Val tt s'.
Proof.
  intros Hinit Hopen. apply Z.ltb_ge in Hinit.
  unfold corsair_init, Bind, libusb, fprintf_stderr, emit, set_handle,
    get_handle, Return.
  cbn [dev log handle buffer].
  change (usb (log s) Libusb_init) with (init_reply usb s).
  rewrite Hinit. cbv beta iota. cbn [dev log handle buffer].
  change (usb (Call Libusb_init (init_reply usb s) :: log s)
              (Libusb_open_device_with_vid_pid CORSAIR_VID H80I_V2_PID))
    with (open_reply usb s).
  rewrite Hopen. change (NULL =? NULL) with true. cbv beta iota.
  eexists; eexists. split; [reflexivity |].
  split; [reflexivity |]. split; [reflexivity |].
  apply close_null. reflexivity.
Qed.

Lemma init_device_not_found_witness :
  exists s',
    corsair_init (failing is_open NULL) fresh_state = Val (-1) s'
    /\ handle (dev s') = NULL
    /\ sent_frames (log s') = []
    /\ corsair_close (failing is_open NULL) s' = Val tt s'.
Proof.
  destruct (init_device_not_found (failing is_open NULL) fresh_state)
    as (r & s' & Hrun & Hnull & Hlog & Hclose).
  - vm_compute. discriminate.
  - reflexivity.
  - exists s'. split; [exact Hrun |]. split; [exact Hnull |].
    split; [rewrite Hlog; reflexivity | exact Hclose].
Defined.

(** After a failed [corsair_init] (started on a device structure whose
    handle is NULL) the handle field is NULL again, or it still holds the
    handle that [corsair_init] has just closed (the detach and claim failure
    paths do not clear it); in that case a following [corsair_close] calls
    [libusb_close] on the same handle a second time. *)
Theorem failed_init_and_close (usb : usb_oracle) (s : state) :
  handle (dev s) = NULL ->
  exists ret s',
    corsair_init usb s = Val ret s'
    /\ (ret < 0 ->
        handle (dev s') = NULL
        \/ (handle (dev s') <> NULL
            /\ count (closes (handle (dev s'))) (log s')
               = S (count (closes (handle (dev s'))) (log s))
            /\ exists s'',
                 corsair_close usb s' = Val tt s''
                 /\ count (closes (handle (dev s'))) (log s'')
                    = S (S (count (closes (handle (dev s'))) (log s))))).
Proof.
  intros Hnull.
  unfold corsair_init, detach_kernel_driver_if_active,
    interrupt_transfer_out, Bind, libusb, fprintf_stderr, usleep, emit,
    set_handle, get_handle, set_buffer, get_buffer, Return.
  cbn [dev log handle buffer].
  repeat (split_on_condition; cbn [dev log handle buffer]).
  all: try match goal with
           | Hne : (?h =? NULL) = false
             |- context [corsair_close ?u ?st] =>
             let Hc := fresh "Hclose" in
             destruct (close_open u st) as (? & ? & ? & ? & Hc);
             [cbn [dev handle]; apply Z.eqb_neq; exact Hne | rewrite Hc]
           end.
  all: eexists; eexists; (split; [reflexivity |]); intros Hneg.
  all: cbn [dev log handle] in *.
  all: try (exfalso; lia).
  all: try (left; first [exact Hnull | reflexivity
                        | apply Z.eqb_eq; assumption]).
  all: right.
  all: match goal with
       | Hne : (?h =? NULL) = false |- _ => apply Z.eqb_neq in Hne
       end.
  all: split; [assumption |].
  all: split;
    [unfold count; cbn [filter closes]; rewrite Z.eqb_refl; reflexivity |].
  all: match goal with
       | Hne : ?h <> NULL |- context [corsair_close ?u ?st] =>
         destruct (close_open u st Hne) as (? & ? & ? & ? & ->)
       end.
  all: eexists; split; [reflexivity |].
  all: unfold count; cbn [log dev handle filter closes];
    rewrite !Z.eqb_refl; reflexivity.
Qed.

Lemma failed_init_and_close_witness :
  exists s' s'',
    corsair_init (failing is_claim LIBUSB_ERROR_IO) fresh_state
    = Val LIBUSB_ERROR_IO s'
    /\ handle (dev s') = 1
    /\ corsair_close (failing is_claim LIBUSB_ERROR_IO) s' = Val tt s''
    /\ count (closes 1) (log s') = 1%nat
    /\ count (closes 1) (log s'') = 2%nat.
Proof.
  destruct (failed_init_and_close (failing is_claim LIBUSB_ERROR_IO)
              fresh_state eq_refl) as (ret & s' & Hrun & Hafter).
  pose proof Hrun as Hval. vm_compute in Hval.
  injection Hval as Hret Hs'. subst ret.
  destruct Hafter as [Hnull | (Hstale & Honce & s'' & Hclose & Htwice)].
  - reflexivity.
  - exfalso. rewrite <- Hs' in Hnull. discriminate Hnull.
  - assert (handle (dev s') = 1) as Hh by (rewrite <- Hs'; reflexivity).
    rewrite Hh in Honce, Htwice.
    exists s', s''. repeat split; assumption.
Defined.

(** ** The connection test *)

(** [main] of [h80i_control.c], started with nothing held, exits with 0 or
    1 and holds nothing when it returns, on every path: the context it
    initialised is exited, the handle it opened is closed, the interface it
    claimed is released.  The exit code is 0 exactly when libusb granted the
    claim. *)
Theorem control_main_releases (usb : H80i_control.oracle)
        (t : list H80i_control.event) :
  H80i_control.held t = H80i_control.nothing ->
  let code := fst (H80i_control.main usb t) in
  let t' := snd (H80i_control.main usb t) in
  (code = 0 \/ code = 1)
  /\ H80i_control.held t' = H80i_control.nothing
  /\ List.length (filter H80i_control.granted_claim t')
     = (List.length (filter H80i_control.granted_claim t)
        + if (code =? 0)%Z then 1 else 0)%nat.
Proof.
  intros Hclean. cbv zeta.
  unfold H80i_control.main, H80i_control.detach_if_active, H80i_control.Seq,
    H80i_control.libusb, H80i_control.say, H80i_control.Ret.
  repeat (split_on_condition; cbn [fst snd negb]).
  all: cbn [fst snd Z.eqb Pos.eqb H80i_control.held H80i_control.account
            filter H80i_control.granted_claim].
  all: rewrite ?Hclean; recall_conditions.
  all: cbn [H80i_control.contexts H80i_control.handles H80i_control.claims
            H80i_control.nothing H80i_control.without filter negb
            List.length].
  all: unfold same_claim; cbn [fst snd]; rewrite ?Z.eqb_refl;
    cbn [andb negb List.length].
  all: split; [first [left; reflexivity | right; reflexivity] |].
  all: split; [reflexivity | lia].
Qed.

Lemma control_main_releases_witness :
  H80i_control.main (H80i_control.scripted H80i_control.no_call 0) []
  = (0, [H80i_control.Called (H80i_control.Exit 3)
                             (H80i_control.mk_reply 0 0);
         H80i_control.Called (H80i_control.Close 7)
                             (H80i_control.mk_reply 0 0);
         H80i_control.Called (H80i_control.Release_interface 7 0)
                             (H80i_control.mk_reply 0 0);
         H80i_control.Printed "Successfully connected to H80i v2\n";
         H80i_control.Called (H80i_control.Claim_interface 7 0)
                             (H80i_control.mk_reply 0 0);
         H80i_control.Called (H80i_control.Detach_kernel_driver 7 0)
                             (H80i_control.mk_reply 0 0);
         H80i_control.Printed "Kernel driver active, detaching...\n";
         H80i_control.Called (H80i_control.Kernel_driver_active 7 0)
                             (H80i_control.mk_reply 1 0);
         H80i_control.Called
           (H80i_control.Open_device_with_vid_pid
              3 CORSAIR_VID H80i_control.H80I_V2_PID)
           (H80i_control.mk_reply 7 0);
         H80i_control.Called
           (H80i_control.Set_option 3 H80i_control.LIBUSB_OPTION_LOG_LEVEL 3)
           (H80i_control.mk_reply 0 0);
         H80i_control.Called H80i_control.Init (H80i_control.mk_reply 0 3)])
  /\ H80i_control.held
       (snd (H80i_control.main
               (H80i_control.scripted H80i_control.is_claim_call
                                      LIBUSB_ERROR_IO) []))
     = H80i_control.nothing
  /\ fst (H80i_control.main
            (H80i_control.scripted H80i_control.is_claim_call
                                   LIBUSB_ERROR_IO) []) = 1.
Proof.
  split; [reflexivity |].
  pose proof (control_main_releases
                (H80i_control.scripted H80i_control.is_claim_call
                                       LIBUSB_ERROR_IO) [] eq_refl)
    as (_ & Hheld & _).
  split; [exact Hheld | reflexivity].
Defined.
